(** * tailscale-dns-sync: the reconciliation of Tailscale devices with Dnspod
      A records ([main.py]), as a shallow embedding.

    Python [str] values are [string]s holding their UTF-8 encoding; equality,
    concatenation and [str.replace] agree with the code-point versions on
    such strings.  HTTP is an oracle that answers a request given everything
    that happened before it; every effect of the program is an [event]
    appended to that history. *)

From Stdlib Require Import ZArith Ascii String List Lia.
From stdpp Require Import base option list strings pretty gmap.
Import ListNotations.
Open Scope string_scope.
Open Scope list_scope.

#[local] Set Warnings "-register-all".

(** ** Decoded JSON values *)

(** What [r.json()] can return.  A float is carried by its Python [repr]
    (no arithmetic is ever done on it).  A [dict] is an association list in
    insertion order; lookup takes the first binding of a key. *)
Inductive json : Type :=
| JNull
| JBool (b : bool)
| JInt (z : Z)
| JFloat (repr : string)
| JStr (s : string)
| JArr (l : list json)
| JObj (kvs : list (string * json)).

Definition pydict : Type := list (string * json).

(** [d.get(k)] / [k in d] on a dict with [str] keys. *)
Fixpoint dict_get (k : string) (d : pydict) : option json :=
  match d with
  | [] => None
  | (k', v) :: d' => if String.eqb k k' then Some v else dict_get k d'
  end.

(** [d[k] = v]: overwrite in place, or append a new key. *)
Fixpoint dict_set (k : string) (v : json) (d : pydict) : pydict :=
  match d with
  | [] => [(k, v)]
  | (k', v') :: d' =>
      if String.eqb k k' then (k', v) :: d' else (k', v') :: dict_set k v d'
  end.

(** [d.update(e)] *)
Definition dict_update (d e : pydict) : pydict :=
  fold_left (fun acc kv => dict_set (fst kv) (snd kv) acc) e d.

(** [v == s] for a [str] [s]: only an equal [str] compares equal. *)
Definition eq_str (v : json) (s : string) : bool :=
  match v with
  | JStr s' => String.eqb s' s
  | _ => false
  end.

(** Truthiness of an optional string ([None] and [''] are false). *)
Definition truthy (o : option string) : bool :=
  match o with
  | Some s => negb (String.eqb s "")
  | None => false
  end.

(** ** Strings *)

(** [s.replace(old, '')] for a non-empty [old]: scan left to right, drop
    each occurrence found, resume after it.  [skip] counts the characters of
    the current occurrence still to be dropped. *)
Fixpoint remove_from (old s : string) (skip : nat) : string :=
  match s with
  | EmptyString => EmptyString
  | String c s' =>
      match skip with
      | S k => remove_from old s' k
      | O =>
          if String.prefix old s
          then remove_from old s' (String.length old - 1)
          else String c (remove_from old s' 0)
      end
  end.

Definition str_remove (old s : string) : string := remove_from old s 0.

(** [old] occurs in [short ++ old] at its end only: at no position inside
    [short] does an occurrence start. *)
Fixpoint only_trailing (old short : string) : bool :=
  match short with
  | EmptyString => true
  | String _ short' =>
      negb (String.prefix old (short +:+ old)) && only_trailing old short'
  end.

(** [s.replace('@', '.')] *)
Fixpoint at_to_dot (s : string) : string :=
  match s with
  | EmptyString => EmptyString
  | String c s' =>
      String (if Ascii.eqb c "@"%char then "."%char else c) (at_to_dot s')
  end.

(** Number of bytes of the UTF-8 sequence that starts with byte [c]. *)
Definition utf8_width (c : ascii) : nat :=
  let n := nat_of_ascii c in
  if Nat.ltb n 192 then 1 else if Nat.ltb n 224 then 2
  else if Nat.ltb n 240 then 3 else 4.

Fixpoint str_take (n : nat) (s : string) : string :=
  match n, s with
  | S k, String c s' => String c (str_take k s')
  | _, _ => EmptyString
  end.

(** The code points of [s], each as a one-character [str]. *)
Fixpoint chars_from (s : string) (skip : nat) : list string :=
  match s with
  | EmptyString => []
  | String c s' =>
      match skip with
      | S k => chars_from s' k
      | O => str_take (utf8_width c) s :: chars_from s' (utf8_width c - 1)
      end
  end.

Definition str_chars (s : string) : list string := chars_from s 0.

(** ** Outcomes, events and the network *)

(** Uncaught Python exceptions.  [TransportError] is whatever
    [requests.get] / [requests.post] itself raises (those calls sit outside
    the [try]).  [NonStrAddress] is not a Python exception: it marks a run
    that would build [Device(name, ip)] with an [ip] that is not a [str],
    which the annotated type [ip: str] of [Device] excludes. *)
Inductive exn : Type :=
| KeyError
| TypeError
| AttributeError
| IndexError
| NameError
| TransportError (detail : string)
| SystemExit (code : Z)
| NonStrAddress.

Inductive outcome (A : Type) : Type :=
| Done (a : A)
| Raised (e : exn).
Arguments Done {A} a.
Arguments Raised {A} e.

(** What happens to a request after it was sent. *)
Inductive http_reply : Type :=
| NoReply (detail : string)          (* the [requests] call itself raises *)
| RequestException (e : string)      (* [raise_for_status()] or [json()] raises one *)
| ValueError                         (* [json()] raises a plain [ValueError] *)
| Decoded (ret : json).              (* status 2xx, body decoded *)

Inductive event : Type :=
| Get (url : string) (auth : string * string)
| Post (url : string) (data : pydict)
| Stdout (line : string)
| Stderr (line : string).

(** The two remote services: each answers from the history so far. *)
Record world : Type := {
  on_get : list event -> string -> string * string -> http_reply;
  on_post : list event -> string -> pydict -> http_reply
}.

(** A computation reads the history, appends to it, and completes or raises. *)
Definition M (A : Type) : Type := list event -> outcome A * list event.

#[global] Instance M_ret : MRet M := fun A a h => (Done a, h).
#[global] Instance M_bind : MBind M := fun A B f m h =>
  match m h with
  | (Done a, h') => f a h'
  | (Raised e, h') => (Raised e, h')
  end.

Definition lift {A : Type} (o : outcome A) : M A := fun h => (o, h).
Definition raise {A : Type} (e : exn) : M A := lift (Raised e).
Definition emit (ev : event) : M unit := fun h => (Done tt, h ++ [ev]).

(** What the network answers to the request [call] when it is sent after
    the history [h]. *)
Definition reply_to (net : world) (h : list event) (call : event) : option http_reply :=
  match call with
  | Get url auth => Some (on_get net h url auth)
  | Post url data => Some (on_post net h url data)
  | _ => None
  end.

(** [for x in xs: body] where [body] answers [Some v] for [return v]. *)
Fixpoint for_each {A R : Type} (body : A -> M (option R)) (xs : list A)
  : M (option R) :=
  match xs with
  | [] => mret None
  | x :: xs' =>
      c ← body x;
      match c with
      | Some v => mret (Some v)
      | None => for_each body xs'
      end
  end.

(** [[f(x) for x in xs]] with the first exception aborting. *)
Fixpoint map_outcome {A B : Type} (f : A -> outcome B) (xs : list A)
  : outcome (list B) :=
  match xs with
  | [] => Done []
  | x :: xs' =>
      match f x with
      | Raised e => Raised e
      | Done y =>
          match map_outcome f xs' with
          | Raised e => Raised e
          | Done ys => Done (y :: ys)
          end
      end
  end.

(** ** Python operations on decoded values *)

(** [v.get(k, default)]: only a dict has [get]. *)
Definition py_get (v : json) (k : string) (default : json) : outcome json :=
  match v with
  | JObj d => Done (match dict_get k d with Some x => x | None => default end)
  | _ => Raised AttributeError
  end.

(** [v[k]] for a [str] key. *)
Definition py_item (v : json) (k : string) : outcome json :=
  match v with
  | JObj d => match dict_get k d with Some x => Done x | None => Raised KeyError end
  | _ => Raised TypeError
  end.

(** [v[0]] *)
Definition py_first (v : json) : outcome json :=
  match v with
  | JArr (x :: _) => Done x
  | JArr [] => Raised IndexError
  | JStr s => match str_chars s with c :: _ => Done (JStr c) | [] => Raised IndexError end
  | JObj _ => Raised KeyError
  | _ => Raised TypeError
  end.

(** [for x in v] *)
Definition py_iter (v : json) : outcome (list json) :=
  match v with
  | JArr l => Done l
  | JObj d => Done (map (fun kv => JStr (fst kv)) d)
  | JStr s => Done (map JStr (str_chars s))
  | _ => Raised TypeError
  end.

Record Device : Type := { name : string; ip : string }.

(** ** Inventory: [get_tailscale_devices] *)

Section Inventory.
Variable net : world.

(** [requests.get(url, auth=auth, timeout=30)] *)
Definition requests_get (url : string) (auth : string * string) : M http_reply :=
  fun h =>
    match on_get net h url auth with
    | NoReply detail => (Raised (TransportError detail), h ++ [Get url auth])
    | r => (Done r, h ++ [Get url auth])
    end.

(** One pass of the loop body of [get_tailscale_devices]. *)
Definition device_of (domain : string) (d : json) : outcome Device :=
  match py_item d "name" with
  | Raised e => Raised e
  | Done (JStr raw) =>
      let name := str_remove ("." +:+ domain) raw in
      match py_item d "addresses" with
      | Raised e => Raised e
      | Done addresses =>
          match py_first addresses with
          | Raised e => Raised e
          | Done (JStr ip) => Done {| name := name; ip := ip |}
          | Done _ => Raised NonStrAddress
          end
      end
  | Done _ => Raised AttributeError
  end.

Definition get_tailscale_devices (tailnet api_key : string)
  : M (option string * option (list Device)) :=
  r ← requests_get
        ("https://api.tailscale.com/api/v2/tailnet/" +:+ tailnet +:+ "/devices")
        (api_key, "");
  match r with
  | NoReply detail => raise (TransportError detail)
  | RequestException e => mret (Some ("Call Tailscale API failed: " +:+ e), None)
  | ValueError => mret (Some "Tailscale API response json decode failed.", None)
  | Decoded ret =>
      let domain := at_to_dot tailnet in
      ds ← lift (py_get ret "devices" (JArr []));
      items ← lift (py_iter ds);
      devices ← lift (map_outcome (device_of domain) items);
      mret (None, Some devices)
  end.
(** [item] is the raw device behind the endpoint [(short, address)]: its
    name is [short.domain], with [.domain] occurring at the end only, and
    its first address is the [str] [address]. *)
Definition raw_device (domain : string) (item : json) (endpoint : string * string) : Prop :=
  py_item item "name" = Done (JStr (fst endpoint +:+ "." +:+ domain)) /\
  only_trailing ("." +:+ domain) (fst endpoint) = true /\
  exists addresses,
    py_item item "addresses" = Done addresses /\
    py_first addresses = Done (JStr (snd endpoint)).
End Inventory.

(** ** DNS Directory and Reconciler: class [Dnspod] *)

Module Dnspod.

Record t : Type := { login_token : string }.

Definition init (api_id api_token : string) : t :=
  {| login_token := api_id +:+ "," +:+ api_token |}.

Section Methods.
Variable net : world.
(** Python's [str()] of a decoded list or dict. *)
Variable py_repr : json -> string.
(** The module-level name [ip], if [from config import *] binds one
    ([config] is not part of the sources). *)
Variable global_ip : option string.
Variable self : t.

(** [f'{v}'] *)
Definition py_str (v : json) : string :=
  match v with
  | JStr s => s
  | JNull => "None"
  | JBool true => "True"
  | JBool false => "False"
  | JInt z => pretty z
  | JFloat r => r
  | _ => py_repr v
  end.

(** [requests.post(url, data=data, timeout=30)] *)
Definition requests_post (url : string) (data : pydict) : M http_reply :=
  fun h =>
    match on_post net h url data with
    | NoReply detail => (Raised (TransportError detail), h ++ [Post url data])
    | r => (Done r, h ++ [Post url data])
    end.

Definition request_data (params : pydict) : pydict :=
  dict_update
    [("login_token", JStr (login_token self)); ("format", JStr "json");
     ("lang", JStr "en"); ("error_on_empty", JStr "yes")]
    params.

Definition _request (path : string) (params : pydict)
  : M (option string * option json) :=
  r ← requests_post ("https://dnsapi.cn/" +:+ path) (request_data params);
  match r with
  | NoReply detail => raise (TransportError detail)
  | RequestException e => mret (Some ("Call Dnspod API failed: " +:+ e), None)
  | ValueError => mret (Some "Dnspod API response json decode failed.", None)
  | Decoded ret =>
      status ← lift (py_get ret "status" (JObj []));
      err_code ← lift (py_get status "code" JNull);
      if negb (eq_str err_code "1") then
        status' ← lift (py_get ret "status" (JObj []));
        err_msg ← lift (py_get status' "message" JNull);
        mret (Some ("Dnspod API response status != 1: " +:+ py_str err_code
                      +:+ "/" +:+ py_str err_msg), None)
      else mret (None, Some ret)
  end.

(** [records[r['name']].append(r)] for each [r].  Only [str] keys are
    kept: the index is only ever looked up with a [str], which no other
    key equals.  A list or dict as key is unhashable. *)
Fixpoint group_records (rs : list json) (records : gmap string (list json))
  : outcome (gmap string (list json)) :=
  match rs with
  | [] => Done records
  | r :: rs' =>
      match py_item r "name" with
      | Raised e => Raised e
      | Done (JStr key) =>
          group_records rs' (<[key := default [] (records !! key) ++ [r]]> records)
      | Done (JArr _) | Done (JObj _) => Raised TypeError
      | Done _ => group_records rs' records
      end
  end.

(** [params = dict(domain=domain)], then
    [if sub_domain: params['sub_domain'] = sub_domain]. *)
Definition list_params (domain : string) (sub_domain : option string) : pydict :=
  let params := [("domain", JStr domain)] in
  match sub_domain with
  | Some s => if truthy sub_domain then dict_set "sub_domain" (JStr s) params else params
  | None => params
  end.

Definition get_domain_records (domain : string) (sub_domain : option string)
  : M (option string * option (gmap string (list json))) :=
  '(err, r) ← _request "Record.List" (list_params domain sub_domain);
  if truthy err then mret (err, None)
  else
    rs ← lift (match r with
               | Some ret => py_get ret "records" (JArr [])
               | None => Raised AttributeError
               end);
    items ← lift (py_iter rs);
    records ← lift (group_records items ∅);
    mret (None, Some records).

Definition add_record_a (ip domain sub_domain : string) : M (option string) :=
  let params :=
    [("domain", JStr domain); ("sub_domain", JStr sub_domain);
     ("record_type", JStr "A"); ("record_line", JStr "默认");
     ("value", JStr ip)] in
  '(err, _) ← _request "Record.Create" params;
  if truthy err then mret err else mret None.

Definition modify_record_a (ip domain sub_domain : string) (record_id : json)
  : M (option string) :=
  let params :=
    [("domain", JStr domain); ("sub_domain", JStr sub_domain);
     ("record_id", record_id);
     ("record_type", JStr "A"); ("record_line", JStr "默认");
     ("value", JStr ip)] in
  '(err, _) ← _request "Record.Modify" params;
  if truthy err then mret err else mret None.

(** [f'{device.name}.{sub_domain}' if sub_domain else device.name] *)
Definition record_name_of (device : Device) (sub_domain : option string) : string :=
  match sub_domain with
  | Some s => if truthy sub_domain then name device +:+ "." +:+ s else name device
  | None => name device
  end.

(** [[r for r in rs if r['line'] == '默认']] *)
Fixpoint default_line (rs : list json) : outcome (list json) :=
  match rs with
  | [] => Done []
  | r :: rs' =>
      match py_item r "line" with
      | Raised e => Raised e
      | Done line =>
          match default_line rs' with
          | Raised e => Raised e
          | Done keep => Done (if eq_str line "默认" then r :: keep else keep)
          end
      end
  end.

(** The body of the loop of [sync_devices_to_domain]; [Some err] stands
    for [return err], [None] for falling through to the next device. *)
Definition sync_device (records : gmap string (list json)) (domain : string)
    (sub_domain : option string) (device : Device) : M (option (option string)) :=
  let record_name := record_name_of device sub_domain in
  match records !! record_name with
  | None =>
      _ ← emit (Stdout ("Record " +:+ record_name +:+ "." +:+ domain
                          +:+ " not exist, set to " +:+ ip device));
      err ← add_record_a (ip device) domain record_name;
      if truthy err then mret (Some err) else mret None
  | Some rs =>
      default_record ← lift (default_line rs);
      match default_record with
      | [] =>
          _ ← emit (Stdout ("Record " +:+ record_name +:+ "." +:+ domain
                              +:+ " default line not exist, set to " +:+ ip device));
          ip ← lift (match global_ip with
                     | Some v => Done v
                     | None => Raised NameError
                     end);
          err ← add_record_a ip domain record_name;
          if truthy err then mret (Some err) else mret None
      | modify_record :: _ =>
          type ← lift (py_item modify_record "type");
          same ← (if eq_str type "A"
                  then value ← lift (py_item modify_record "value");
                       mret (eq_str value (ip device))
                  else mret false);
          if same : bool then
            _ ← emit (Stdout ("Record " +:+ record_name +:+ "." +:+ domain
                                +:+ " is already point to " +:+ ip device
                                +:+ ", do nothing"));
            mret None
          else
            old_value ← lift (py_item modify_record "value");
            _ ← emit (Stdout ("Record " +:+ record_name +:+ "." +:+ domain
                                +:+ " from " +:+ py_str old_value
                                +:+ " change to " +:+ ip device));
            record_id ← lift (py_item modify_record "id");
            err ← modify_record_a (ip device) domain record_name record_id;
            if truthy err then mret (Some err) else mret None
      end
  end.

(** [for device in devices: ...], then falling off the end of the
    function. *)
Definition sync_loop (records : gmap string (list json)) (domain : string)
    (sub_domain : option string) (devices : list Device) : M (option string) :=
  r ← for_each (sync_device records domain sub_domain) devices;
  match r with
  | Some err => mret err
  | None => mret None
  end.

Definition sync_devices_to_domain (devices : list Device) (domain : string)
    (sub_domain : option string) : M (option string) :=
  '(err, records) ← get_domain_records domain sub_domain;
  if truthy err then mret err
  else
    match records with
    | Some records => sync_loop records domain sub_domain devices
    | None =>
        (* [record_name not in None] *)
        match devices with
        | [] => mret None
        | _ :: _ => raise TypeError
        end
    end.
(** *** Vocabulary of the properties below *)

(** What [sync] does once the iteration of one device has ended with
    [c]: return its error, re-raise, or go on with the remaining devices. *)
Definition resume (c : outcome (option (option string))) (rest : M (option string))
  : M (option string) :=
  fun h =>
    match c with
    | Done (Some err) => (Done err, h)
    | Done None => rest h
    | Raised e => (Raised e, h)
    end.

(** The record list was fetched at [h] and gave the index [records]. *)
Definition listed (domain : string) (sub_domain : option string)
      (h : list event) (records : gmap string (list json)) (h1 : list event) : Prop :=
  get_domain_records domain sub_domain h = (Done (None, Some records), h1).

(** The loop went through [pre] without error, from [h1] to [h2]. *)
Definition reaches (records : gmap string (list json)) (domain : string)
      (sub_domain : option string) (pre : list Device)
    (h1 h2 : list event) : Prop :=
  for_each (sync_device records domain sub_domain) pre h1 = (Done None, h2).

Definition list_call (domain : string) (sub_domain : option string) : event :=
  Post "https://dnsapi.cn/Record.List" (request_data (list_params domain sub_domain)).

Definition create_call (domain ip record_name : string) : event :=
  Post "https://dnsapi.cn/Record.Create"
    (request_data
       [("domain", JStr domain); ("sub_domain", JStr record_name);
        ("record_type", JStr "A"); ("record_line", JStr "默认");
        ("value", JStr ip)]).

Definition update_call (domain ip record_name : string) (record_id : json) : event :=
  Post "https://dnsapi.cn/Record.Modify"
    (request_data
       [("domain", JStr domain); ("sub_domain", JStr record_name);
        ("record_id", record_id);
        ("record_type", JStr "A"); ("record_line", JStr "默认");
        ("value", JStr ip)]).
(** The log line of an iteration that finds nothing to do. *)
Definition noop_line (domain : string) (sub_domain : option string) (d : Device) : event :=
  Stdout ("Record " +:+ record_name_of d sub_domain +:+ "." +:+ domain
            +:+ " is already point to " +:+ ip d +:+ ", do nothing").

(** [d] is converged in [records]: the default-line record that the code
    selects under its name has type [A] and the address of [d] as value. *)
Definition converged (records : gmap string (list json)) (sub_domain : option string)
    (d : Device) : Prop :=
  exists rs r others type value,
    records !! record_name_of d sub_domain = Some rs /\
    default_line rs = Done (r :: others) /\
    py_item r "type" = Done type /\
    py_item r "value" = Done value /\
    eq_str type "A" = true /\
    eq_str value (ip d) = true.
(** At [hw] a create or update call for [record_name] returned [err],
    leaving the history [h3]. *)
Definition write_returned (domain record_name : string) (hw : list event)
    (err : option string) (h3 : list event) : Prop :=
  (exists ip', add_record_a ip' domain record_name hw = (Done err, h3)) \/
  (exists ip' record_id,
     modify_record_a ip' domain record_name record_id hw = (Done err, h3)).

(** How an iteration ends after its write call came back with [w]. *)
Definition after_write (w : outcome (option string) * list event)
  : outcome (option (option string)) * list event :=
  (match fst w with
   | Done err => Done (if truthy err then Some err else None)
   | Raised e => Raised e
   end, snd w).
End Methods.
End Dnspod.

(** ** [main] *)

(** The constants [main] takes from [config]. *)
Record config : Type := {
  TAILSCALE_TAILNET : string;
  TAILSCALE_API_KEY : string;
  DNSPOD_API_ID : string;
  DNSPOD_API_TOKEN : string;
  DNSPOD_DOMAIN : string;
  DNSPOD_SUB_DOMAIN : option string
}.

Section Main.
Variable net : world.
Variable py_repr : json -> string.
Variable global_ip : option string.
Variable cfg : config.

(** [sys.exit(1)] *)
Definition sys_exit {A : Type} (code : Z) : M A := raise (SystemExit code).

Definition main : M unit :=
  '(err, devices) ← get_tailscale_devices net (TAILSCALE_TAILNET cfg) (TAILSCALE_API_KEY cfg);
  if truthy err then
    _ ← emit (Stderr ("Get tailscale devices failed: " +:+ default "" err));
    sys_exit 1
  else
    let dnspod := Dnspod.init (DNSPOD_API_ID cfg) (DNSPOD_API_TOKEN cfg) in
    err ← match devices with
          | Some devices =>
              Dnspod.sync_devices_to_domain net py_repr global_ip dnspod devices
                (DNSPOD_DOMAIN cfg) (DNSPOD_SUB_DOMAIN cfg)
          | None =>
              (* [for device in None] after the record list was fetched *)
              '(err, _) ← Dnspod.get_domain_records net py_repr dnspod
                            (DNSPOD_DOMAIN cfg) (DNSPOD_SUB_DOMAIN cfg);
              if truthy err then mret err else raise TypeError
          end;
    if truthy err then
      _ ← emit (Stderr ("Dnspod sync records failed: " +:+ default "" err));
      sys_exit 1
    else mret tt.
End Main.

(** ** Sample data *)

Module Sample.

Definition status (code message : string) : string * json :=
  ("status", JObj [("code", JStr code); ("message", JStr message)]).

Definition record (id name line type value : string) : json :=
  JObj [("id", JStr id); ("name", JStr name); ("line", JStr line);
        ("type", JStr type); ("value", JStr value)].

Definition listing (records : list json) : http_reply :=
  Decoded (JObj [status "1" "Action completed successful"; ("records", JArr records)]).

Definition accepted : http_reply :=
  Decoded (JObj [status "1" "Action completed successful"]).

Definition rejected : http_reply :=
  Decoded (JObj [status "6" "Invalid domain"]).

Definition inventory (devices : list (string * string)) : http_reply :=
  Decoded (JObj [("devices",
                  JArr (map (fun d => JObj [("name", JStr (fst d));
                                            ("addresses", JArr [JStr (snd d)])])
                          devices))]).

(** A network that always gives the same three answers. *)
Definition net (inventory listing write : http_reply) : world :=
  {| on_get := fun _ _ _ => inventory;
     on_post := fun _ url _ =>
       if String.eqb url "https://dnsapi.cn/Record.List" then listing else write |}.

Definition py_repr (v : json) : string := "...".

Definition dnspod : Dnspod.t := Dnspod.init "12345" "token".

Definition host : Device := {| name := "host"; ip := "100.64.0.1" |}.
Definition nas : Device := {| name := "nas"; ip := "100.64.0.2" |}.

Definition cfg : config :=
  {| TAILSCALE_TAILNET := "user@example.com";
     TAILSCALE_API_KEY := "tskey";
     DNSPOD_API_ID := "12345";
     DNSPOD_API_TOKEN := "token";
     DNSPOD_DOMAIN := "example.org";
     DNSPOD_SUB_DOMAIN := Some "ts" |}.

Definition domain : string := "example.org".
Definition sub_domain : option string := Some "ts".
Definition list_call : event := Dnspod.list_call dnspod domain sub_domain.

(** Records of [host] and [nas] on the default line: [stale] points
    elsewhere, [fresh] and [fresh_nas] at the devices; [telecom] is on
    another line. *)
Definition stale : json := record "7" "host.ts" "默认" "A" "1.1.1.1".
Definition fresh : json := record "7" "host.ts" "默认" "A" "100.64.0.1".
Definition fresh_nas : json := record "8" "nas.ts" "默认" "A" "100.64.0.2".
Definition telecom : json := record "7" "host.ts" "电信" "A" "1.1.1.1".

(** What every operation returns on [rejected]. *)
Definition rejection : option string :=
  Some "Dnspod API response status != 1: 6/Invalid domain".

End Sample.

(** ** Vocabulary of the further properties *)

(** [r['name'] == k] *)
Definition named (k : string) (r : json) : bool :=
  match py_item r "name" with
  | Done v => eq_str v k
  | Raised _ => false
  end.

(** [r['line'] == '默认'] *)
Definition on_default_line (r : json) : bool :=
  match py_item r "line" with
  | Done v => eq_str v "默认"
  | Raised _ => false
  end.

Definition is_dict (v : json) : Prop :=
  match v with
  | JObj _ => True
  | _ => False
  end.

Definition is_post (ev : event) : bool :=
  match ev with
  | Post _ _ => true
  | _ => false
  end.

(** [old] occurs nowhere in [s]. *)
Fixpoint no_occurrence (old s : string) : bool :=
  match s with
  | EmptyString => true
  | String _ s' => negb (String.prefix old s) && no_occurrence old s'
  end.

(** In the words of the amended name normalization: [out] is [s] with
    every occurrence of [old] removed, the occurrences being taken from the
    left and without overlap, and everything else kept in place.  Either
    [old] occurs nowhere and [s] is kept, or [s] is [kept ++ old ++ rest]
    with [kept] running up to the first occurrence, and the same is done to
    [rest]. *)
Inductive all_removed (old : string) : string -> string -> Prop :=
| removed_none s :
    no_occurrence old s = true -> all_removed old s s
| removed_first kept rest out :
    only_trailing old kept = true ->
    all_removed old rest out ->
    all_removed old (kept +:+ old +:+ rest) (kept +:+ out).

(** An event of the loop of [sync_devices_to_domain] over [devices]: a log
    line, or a create or update request for the record name of one of the
    devices.  An update carries the address of that device; a create
    carries it too, or the global [ip]. *)
Definition loop_event (self : Dnspod.t) (global_ip : option string) (domain : string)
    (sub_domain : option string) (devices : list Device) (ev : event) : Prop :=
  match ev with
  | Stdout _ => True
  | Post _ _ =>
      exists d, In d devices /\
        ((exists ip', (ip' = ip d \/ global_ip = Some ip') /\
            ev = Dnspod.create_call self domain ip'
                   (Dnspod.record_name_of d sub_domain)) \/
         (exists record_id,
            ev = Dnspod.update_call self domain (ip d)
                   (Dnspod.record_name_of d sub_domain) record_id))
  | _ => False
  end.

(** * Properties *)

Example str_remove_ex :
  str_remove ".swulling.gmail.com" "yangtaodeimac.swulling.gmail.com"
  = "yangtaodeimac".
Proof. reflexivity. Qed.

Example default_line_bytes : String.length "默认" = 6.
Proof. reflexivity. Qed.

Example str_chars_ex : str_chars "默认a" = ["默"; "认"; "a"].
Proof. reflexivity. Qed.

(** A whole run: [host] has a stale record, [nas] has none. *)
Example main_run :
  main (Sample.net
          (Sample.inventory [("host.user.example.com", "100.64.0.1");
                             ("nas.user.example.com", "100.64.0.2")])
          (Sample.listing [Sample.stale]) Sample.accepted)
    Sample.py_repr None Sample.cfg []
  = (Done tt,
     [Get "https://api.tailscale.com/api/v2/tailnet/user@example.com/devices" ("tskey", "");
      Sample.list_call;
      Stdout "Record host.ts.example.org from 1.1.1.1 change to 100.64.0.1";
      Dnspod.update_call Sample.dnspod "example.org" "100.64.0.1" "host.ts" (JStr "7");
      Stdout "Record nas.ts.example.org not exist, set to 100.64.0.2";
      Dnspod.create_call Sample.dnspod "example.org" "100.64.0.2" "nas.ts"]).
Proof. vm_compute. reflexivity. Qed.

Ltac unfold_M :=
  unfold mbind, M_bind, mret, M_ret, raise, lift, emit in *.

(** ** The loop *)

Lemma for_each_app {A R : Type} (body : A -> M (option R)) (pre xs : list A) h1 h2 :
  for_each body pre h1 = (Done None, h2) ->
  for_each body (pre ++ xs) h1 = for_each body xs h2.
Proof.
  revert h1; induction pre as [|x pre IH]; intros h1 Hpre; simpl in *.
  - unfold_M. by inversion Hpre.
  - unfold_M. destruct (body x h1) as [[[v|]|e] h'] eqn:Hx; try discriminate.
    by apply IH.
Qed.

Lemma for_each_cons {A R : Type} (body : A -> M (option R)) x xs h :
  for_each body (x :: xs) h =
  match body x h with
  | (Done (Some v), h') => (Done (Some v), h')
  | (Done None, h') => for_each body xs h'
  | (Raised e, h') => (Raised e, h')
  end.
Proof.
  simpl. unfold_M. by destruct (body x h) as [[[v|]|e] h'].
Qed.

Section Reconciler.
Variable net : world.
Variable py_repr : json -> string.
Variable global_ip : option string.
Variable self : Dnspod.t.
Variable domain : string.
Variable sub_domain : option string.

Import Dnspod.

Abbreviation request := (_request net py_repr self).
Abbreviation iteration records :=
  (sync_device net py_repr global_ip self records domain sub_domain).
Abbreviation rest_of_loop records :=
  (sync_loop net py_repr global_ip self records domain sub_domain).
Abbreviation sync devices :=
  (sync_devices_to_domain net py_repr global_ip self devices domain sub_domain).
Abbreviation listed := (Dnspod.listed net py_repr self domain sub_domain).
Abbreviation reaches records :=
  (Dnspod.reaches net py_repr global_ip self records domain sub_domain).
Abbreviation create_call := (Dnspod.create_call self domain).
Abbreviation update_call := (Dnspod.update_call self domain).

Lemma request_history path params h :
  snd (request path params h)
  = h ++ [Post ("https://dnsapi.cn/" +:+ path) (request_data self params)].
Proof.
  unfold _request, requests_post. unfold_M.
  destruct (on_post net h _ _) as [d|e| |ret]; simpl; try done.
  destruct (py_get ret "status" _) as [status|]; simpl; [|done].
  destruct (py_get status "code" _) as [code|]; simpl; [|done].
  destruct (negb _); simpl; [|done].
  by destruct (py_get status "message" _).
Qed.

Lemma add_record_a_history ip record_name h :
  snd (add_record_a net py_repr self ip domain record_name h)
  = h ++ [create_call ip record_name].
Proof.
  unfold add_record_a. unfold_M.
  pose proof (request_history "Record.Create"
    [("domain", JStr domain); ("sub_domain", JStr record_name);
     ("record_type", JStr "A"); ("record_line", JStr "默认");
     ("value", JStr ip)] h) as Hh.
  destruct (request _ _ h) as [[[err r]|e] h']; simpl in *; subst h'.
  - by destruct (truthy err).
  - done.
Qed.

Lemma modify_record_a_history ip record_name record_id h :
  snd (modify_record_a net py_repr self ip domain record_name record_id h)
  = h ++ [update_call ip record_name record_id].
Proof.
  unfold modify_record_a. unfold_M.
  pose proof (request_history "Record.Modify"
    [("domain", JStr domain); ("sub_domain", JStr record_name);
     ("record_id", record_id);
     ("record_type", JStr "A"); ("record_line", JStr "默认");
     ("value", JStr ip)] h) as Hh.
  destruct (request _ _ h) as [[[err r]|e] h']; simpl in *; subst h'.
  - by destruct (truthy err).
  - done.
Qed.

(** [sync] on [pre ++ d :: post], once the list is fetched and the loop
    has gone through [pre]: the iteration of [d], then [resume]. *)
Lemma sync_at records pre d post h h1 h2 :
  listed h records h1 ->
  reaches records pre h1 h2 ->
  sync (pre ++ d :: post) h =
  resume (fst (iteration records d h2)) (rest_of_loop records post)
         (snd (iteration records d h2)).
Proof.
  intros Hlist Hpre. unfold sync_devices_to_domain, Dnspod.listed, Dnspod.reaches in *.
  unfold mbind at 1. unfold M_bind at 1. rewrite Hlist. simpl.
  unfold sync_loop. unfold mbind at 1. unfold M_bind at 1.
  rewrite (for_each_app _ pre (d :: post) h1 h2 Hpre), for_each_cons.
  unfold resume.
  destruct (iteration records d h2) as [[[err|]|e] h3]; simpl; try done.
Qed.
(** The iteration of a device whose name misses the index. *)
Lemma iteration_miss records d h2 :
  records !! record_name_of d sub_domain = None ->
  iteration records d h2 =
  (match fst (add_record_a net py_repr self (ip d) domain (record_name_of d sub_domain)
                (h2 ++ [Stdout ("Record " +:+ record_name_of d sub_domain +:+ "."
                                  +:+ domain +:+ " not exist, set to " +:+ ip d)])) with
   | Done err => Done (if truthy err then Some err else None)
   | Raised e => Raised e
   end,
   h2 ++ [Stdout ("Record " +:+ record_name_of d sub_domain +:+ "." +:+ domain
                    +:+ " not exist, set to " +:+ ip d);
          create_call (ip d) (record_name_of d sub_domain)]).
Proof.
  intros Hmiss. unfold sync_device. rewrite Hmiss. unfold_M.
  set (line := Stdout _).
  pose proof (add_record_a_history (ip d) (record_name_of d sub_domain) (h2 ++ [line])) as Hh.
  destruct (add_record_a _ _ _ _ _ _ _) as [[err|e] h3]; simpl in *; subst h3;
    rewrite <- app_assoc; simpl; [by destruct (truthy err)|done].
Qed.

(** C2. An endpoint whose composed record name has no entry in the Record
    Index: its iteration, run where the loop reaches it, appends one log
    line and exactly one [Record.Create] request carrying the endpoint's own
    address, and no [Record.Modify]; [sync] then returns the error of that
    call or goes on with the remaining endpoints. *)
Theorem new_endpoint_create records pre d post h h1 h2 :
  listed h records h1 ->
  reaches records pre h1 h2 ->
  records !! record_name_of d sub_domain = None ->
  let record_name := record_name_of d sub_domain in
  let line := Stdout ("Record " +:+ record_name +:+ "." +:+ domain
                        +:+ " not exist, set to " +:+ ip d) in
  let h3 := h2 ++ [line; create_call (ip d) record_name] in
  exists c,
    iteration records d h2 = (c, h3) /\
    sync (pre ++ d :: post) h = resume c (rest_of_loop records post) h3.
Proof.
  intros Hlist Hpre Hmiss record_name line h3.
  rewrite (sync_at records pre d post h h1 h2 Hlist Hpre).
  rewrite (iteration_miss records d h2 Hmiss). simpl.
  eexists; split; reflexivity.
Qed.

(** C1. An endpoint whose record name is in the index with exactly one
    default-line record [r], where [{type, value}] of [r] differs from
    [{A, address}]: its iteration appends one log line and exactly one
    [Record.Modify] request carrying the endpoint's address and the id of
    [r], and no [Record.Create]. *)
Theorem changed_address_update records pre d post h h1 h2 rs r type value record_id :
  listed h records h1 ->
  reaches records pre h1 h2 ->
  records !! record_name_of d sub_domain = Some rs ->
  default_line rs = Done [r] ->
  py_item r "type" = Done type ->
  py_item r "value" = Done value ->
  py_item r "id" = Done record_id ->
  eq_str type "A" && eq_str value (ip d) = false ->
  let record_name := record_name_of d sub_domain in
  let line := Stdout ("Record " +:+ record_name +:+ "." +:+ domain +:+ " from "
                        +:+ py_str py_repr value +:+ " change to " +:+ ip d) in
  let h3 := h2 ++ [line; update_call (ip d) record_name record_id] in
  exists c,
    iteration records d h2 = (c, h3) /\
    sync (pre ++ d :: post) h = resume c (rest_of_loop records post) h3.
Proof.
  intros Hlist Hpre Hhit Hdef Htype Hvalue Hid Hdiff record_name line h3.
  rewrite (sync_at records pre d post h h1 h2 Hlist Hpre).
  assert (exists c, iteration records d h2 = (c, h3)) as [c Hc].
  { unfold sync_device. rewrite Hhit. unfold_M. rewrite Hdef, Htype.
    fold record_name.
    pose proof (modify_record_a_history (ip d) record_name record_id (h2 ++ [line])) as Hh.
    destruct (eq_str type "A") eqn:HA; simpl in Hdiff;
      rewrite ?Hvalue, ?Hdiff, ?Hid; simpl; fold line;
      destruct (modify_record_a _ _ _ _ _ _ _ _) as [[err|e] h'];
      simpl in Hh; subst h'; unfold h3; rewrite <- app_assoc; simpl;
      try (destruct (truthy err)); eexists; reflexivity. }
  rewrite Hc. simpl. eauto.
Qed.

(** C4. An endpoint whose record name is in the index and whose default-line
    record (the first one the filter keeps) has type [A] and the endpoint's
    address as value: its iteration appends one log line and no request. *)
Theorem unchanged_address_noop records pre d post h h1 h2 rs r others type value :
  listed h records h1 ->
  reaches records pre h1 h2 ->
  records !! record_name_of d sub_domain = Some rs ->
  default_line rs = Done (r :: others) ->
  py_item r "type" = Done type ->
  py_item r "value" = Done value ->
  eq_str type "A" = true ->
  eq_str value (ip d) = true ->
  let line := Stdout ("Record " +:+ record_name_of d sub_domain +:+ "." +:+ domain
                        +:+ " is already point to " +:+ ip d +:+ ", do nothing") in
  iteration records d h2 = (Done None, h2 ++ [line]) /\
  sync (pre ++ d :: post) h = rest_of_loop records post (h2 ++ [line]).
Proof.
  intros Hlist Hpre Hhit Hdef Htype Hvalue HA Hsame line.
  rewrite (sync_at records pre d post h h1 h2 Hlist Hpre).
  assert (iteration records d h2 = (Done None, h2 ++ [line])) as Hc.
  { unfold sync_device. rewrite Hhit. unfold_M.
    rewrite Hdef, Htype, HA, Hvalue, Hsame. reflexivity. }
  rewrite Hc. simpl. auto.
Qed.
Lemma iteration_converged records d h2 :
  Dnspod.converged records sub_domain d ->
  iteration records d h2 = (Done None, h2 ++ [noop_line domain sub_domain d]).
Proof.
  intros (rs & r & others & type & value & Hhit & Hdef & Htype & Hvalue & HA & Hsame).
  unfold sync_device. rewrite Hhit. unfold_M.
  rewrite Hdef, Htype, HA, Hvalue, Hsame. reflexivity.
Qed.

Lemma loop_converged records devices :
  Forall (Dnspod.converged records sub_domain) devices ->
  forall h1,
    for_each (iteration records) devices h1
    = (Done None, h1 ++ map (noop_line domain sub_domain) devices).
Proof.
  induction 1 as [|d devices Hd _ IH]; intros h1.
  - simpl. unfold_M. by rewrite app_nil_r.
  - rewrite for_each_cons, (iteration_converged records d h1 Hd), IH.
    by rewrite <- app_assoc.
Qed.

(** C5. Idempotence at convergence: when the record list is fetched and
    every endpoint is converged in it, [sync] returns success ([None]) and
    appends only log lines after the list request: no [Record.Create] and no
    [Record.Modify]. *)
Theorem idempotent_at_convergence records devices h h1 :
  listed h records h1 ->
  Forall (Dnspod.converged records sub_domain) devices ->
  sync devices h = (Done None, h1 ++ map (noop_line domain sub_domain) devices).
Proof.
  intros Hlist Hall. unfold sync_devices_to_domain, Dnspod.listed in *.
  unfold mbind at 1. unfold M_bind at 1. rewrite Hlist. simpl.
  unfold sync_loop. unfold_M. by rewrite (loop_converged records devices Hall h1).
Qed.

Lemma create_call_inj ip1 ip2 n1 n2 :
  create_call ip1 n1 = create_call ip2 n2 -> ip1 = ip2.
Proof. unfold Dnspod.create_call, request_data. simpl. by intros [= _ ?]. Qed.

Lemma update_call_inj ip1 ip2 n1 n2 id1 id2 :
  update_call ip1 n1 id1 = update_call ip2 n2 id2 -> ip1 = ip2 /\ id1 = id2.
Proof. unfold Dnspod.update_call, request_data. simpl. by intros [= _ ? ?]. Qed.

Ltac pick_write :=
  match goal with
  | |- context [add_record_a _ _ _ ?i _ _ (_ ++ [Stdout ?l])] => exists l, i
  | |- context [modify_record_a _ _ _ _ _ _ ?r (_ ++ [Stdout ?l])] => exists l, r
  end.

(** The four ways an iteration can go: nothing appended, a log line only,
    a log line and a create call, a log line and an update call.  Without a
    write call it never ends in [return err]. *)
Lemma iteration_shape records d h2 :
  (exists c, iteration records d h2 = (c, h2) /\ forall e, c <> Done (Some e)) \/
  (exists c line, iteration records d h2 = (c, h2 ++ [Stdout line])
                  /\ forall e, c <> Done (Some e)) \/
  (exists line ip',
     iteration records d h2 =
     after_write (add_record_a net py_repr self ip' domain
                    (record_name_of d sub_domain) (h2 ++ [Stdout line]))) \/
  (exists line record_id,
     iteration records d h2 =
     after_write (modify_record_a net py_repr self (ip d) domain
                    (record_name_of d sub_domain) record_id (h2 ++ [Stdout line]))).
Proof.
  unfold sync_device, after_write. unfold_M.
  destruct (records !! _) as [rs|].
  - destruct (default_line rs) as [[|r others]|]; [| |left; by eexists].
    + destruct global_ip as [v|]; [|right; left; by repeat eexists].
      right; right; left. pick_write.
      destruct (add_record_a _ _ _ _ _ _ _) as [[e|?] h']; [|done].
      simpl; by destruct (truthy e).
    + destruct (py_item r "type") as [type|]; [|left; by eexists].
      destruct (eq_str type "A").
      * destruct (py_item r "value") as [value|]; [|left; by eexists].
        destruct (eq_str value (ip d)); [right; left; by repeat eexists|].
        destruct (py_item r "id") as [record_id|]; [|right; left; by repeat eexists].
        right; right; right. pick_write.
        destruct (modify_record_a _ _ _ _ _ _ _ _) as [[e|?] h']; [|done].
        simpl; by destruct (truthy e).
      * destruct (py_item r "value") as [value|]; [|left; by eexists].
        destruct (py_item r "id") as [record_id|]; [|right; left; by repeat eexists].
        right; right; right. pick_write.
        destruct (modify_record_a _ _ _ _ _ _ _ _) as [[e|?] h']; [|done].
        simpl; by destruct (truthy e).
  - right; right; left. pick_write.
    destruct (add_record_a _ _ _ _ _ _ _) as [[e|?] h']; [|done].
    simpl; by destruct (truthy e).
Qed.

(** A write call that returned at the end of [h3] was not issued at or
    before [h3] itself, nor is it a log line. *)
Lemma write_returned_last record_name hw err h3 :
  Dnspod.write_returned net py_repr self domain record_name hw err h3 ->
  (exists ip', h3 = hw ++ [create_call ip' record_name]
               /\ add_record_a net py_repr self ip' domain record_name hw = (Done err, h3)) \/
  (exists ip' record_id,
     h3 = hw ++ [update_call ip' record_name record_id]
     /\ modify_record_a net py_repr self ip' domain record_name record_id hw = (Done err, h3)).
Proof.
  intros [[ip' Hw]|(ip' & record_id & Hw)]; [left; exists ip'|right; exists ip', record_id];
    (split; [|done]).
  - by rewrite <- (add_record_a_history ip' record_name hw), Hw.
  - by rewrite <- (modify_record_a_history ip' record_name record_id hw), Hw.
Qed.

(** C6. Fail-fast on write error: when a create or update call issued
    during the iteration of the Nth endpoint returns the error [err], [sync]
    returns [err] with the history ending at that call: nothing is looked
    up, created or updated for the endpoints after it. *)
Theorem fail_fast_on_write_error records pre d post h h1 h2 c h3 seg err :
  listed h records h1 ->
  reaches records pre h1 h2 ->
  iteration records d h2 = (c, h3) ->
  Dnspod.write_returned net py_repr self domain (record_name_of d sub_domain)
    (h2 ++ seg) err h3 ->
  truthy err = true ->
  sync (pre ++ d :: post) h = (Done err, h3).
Proof.
  intros Hlist Hpre Hd Hw Herr.
  rewrite (sync_at records pre d post h h1 h2 Hlist Hpre), Hd. simpl.
  enough (c = Done (Some err)) as -> by done.
  apply write_returned_last in Hw.
  assert (exists call, h3 = h2 ++ seg ++ [call] /\
            ((exists ip', call = create_call ip' (record_name_of d sub_domain) /\
                add_record_a net py_repr self ip' domain (record_name_of d sub_domain)
                  (h2 ++ seg) = (Done err, h3)) \/
             (exists ip' record_id,
                call = update_call ip' (record_name_of d sub_domain) record_id /\
                modify_record_a net py_repr self ip' domain (record_name_of d sub_domain)
                  record_id (h2 ++ seg) = (Done err, h3))))
    as (call & Hh3 & Hcall).
  { destruct Hw as [(ip' & -> & Hw)|(ip' & record_id & -> & Hw)];
      eexists; (split; [by rewrite <- app_assoc|]); [left|right]; eauto. }
  clear Hw.
  destruct (iteration_shape records d h2)
    as [(c0 & Hit & _)|[(c0 & line & Hit & _)|[(line & ip0 & Hit)|(line & id0 & Hit)]]];
    rewrite Hit in Hd.
  - injection Hd as _ Hh. rewrite Hh3 in Hh. apply (f_equal length) in Hh.
    rewrite !length_app in Hh. simpl in Hh. lia.
  - injection Hd as _ Hh. rewrite Hh3 in Hh. apply app_inv_head in Hh.
    destruct seg as [|x [|y seg]]; simpl in Hh; try discriminate.
    injection Hh as <-. destruct Hcall as [(? & ? & _)|(? & ? & ? & _)]; discriminate.
  - unfold after_write in Hd. injection Hd as Hc Hh.
    rewrite add_record_a_history, Hh3, <- app_assoc in Hh. apply app_inv_head in Hh.
    destruct seg as [|x [|y [|z seg]]]; simpl in Hh; try discriminate.
    injection Hh as <- Heq.
    destruct Hcall as [(ip' & -> & Hw)|(ip' & record_id & -> & _)]; [|discriminate].
    apply create_call_inj in Heq. subst ip'.
    rewrite Hw in Hc. simpl in Hc. by rewrite Herr in Hc.
  - unfold after_write in Hd. injection Hd as Hc Hh.
    rewrite modify_record_a_history, Hh3, <- app_assoc in Hh. apply app_inv_head in Hh.
    destruct seg as [|x [|y [|z seg]]]; simpl in Hh; try discriminate.
    injection Hh as <- Heq.
    destruct Hcall as [(ip' & -> & _)|(ip' & record_id & -> & Hw)]; [discriminate|].
    apply update_call_inj in Heq as [<- <-].
    rewrite Hw in Hc. simpl in Hc. by rewrite Herr in Hc.
Qed.
(** ** The response envelope *)

Lemma request_rejected path params h env st code :
  on_post net h ("https://dnsapi.cn/" +:+ path) (request_data self params)
  = Decoded (JObj env) ->
  dict_get "status" env = Some (JObj st) ->
  dict_get "code" st = Some code ->
  eq_str code "1" = false ->
  request path params h =
  (Done (Some ("Dnspod API response status != 1: " +:+ py_str py_repr code +:+ "/"
                 +:+ py_str py_repr (default JNull (dict_get "message" st))), None),
   h ++ [Post ("https://dnsapi.cn/" +:+ path) (request_data self params)]).
Proof.
  intros Hreply Hstatus Hcode Hne.
  unfold _request, requests_post. unfold_M. rewrite Hreply. simpl.
  rewrite Hstatus. simpl. rewrite Hcode, Hne. simpl.
  by destruct (dict_get "message" st).
Qed.

(** C8. Each DNS Directory operation (list, create, update) whose own
    request is answered with HTTP success and a decoded envelope carrying a
    status code other than ['1'] returns the error text built from the
    provider's code and message, and no success value, whatever the
    provider answers to other requests. *)
Theorem provider_rejected_is_error h env st code ip record_name record_id :
  dict_get "status" env = Some (JObj st) ->
  dict_get "code" st = Some code ->
  eq_str code "1" = false ->
  let message := default JNull (dict_get "message" st) in
  let err := "Dnspod API response status != 1: " +:+ py_str py_repr code +:+ "/"
               +:+ py_str py_repr message in
  (reply_to net h (Dnspod.list_call self domain sub_domain) = Some (Decoded (JObj env)) ->
   fst (get_domain_records net py_repr self domain sub_domain h) = Done (Some err, None)) /\
  (reply_to net h (create_call ip record_name) = Some (Decoded (JObj env)) ->
   fst (add_record_a net py_repr self ip domain record_name h) = Done (Some err)) /\
  (reply_to net h (update_call ip record_name record_id) = Some (Decoded (JObj env)) ->
   fst (modify_record_a net py_repr self ip domain record_name record_id h)
   = Done (Some err)).
Proof.
  intros Hstatus Hcode Hne message err.
  unfold get_domain_records, add_record_a, modify_record_a. unfold_M.
  repeat split; intros [= Hreply];
    rewrite (request_rejected _ _ h env st code Hreply Hstatus Hcode Hne); done.
Qed.

(** ** Empty inventory *)

Lemma sync_no_devices_history h :
  snd (sync [] h) = h ++ [Dnspod.list_call self domain sub_domain].
Proof.
  unfold sync_devices_to_domain, get_domain_records, sync_loop. unfold_M.
  pose proof (request_history "Record.List" (list_params domain sub_domain) h) as Hh.
  destruct (request _ _ h) as [[[err r]|e] h1]; simpl in *; subst h1; [|reflexivity].
  destruct (truthy err) eqn:He; simpl; rewrite ?He; [reflexivity|].
  destruct (match r with Some _ => _ | None => _ end) as [rs|]; [|reflexivity].
  destruct (py_iter rs) as [items|]; [|reflexivity].
  destruct (group_records items ∅); reflexivity.
Qed.

(** C10. An inventory reply with HTTP success and a JSON object without a
    ['devices'] key makes [get_tailscale_devices] return success with the
    empty device list; [sync] over the empty list sends the record-list
    request and nothing else. *)
Theorem missing_devices_key_is_empty tailnet api_key body h h' :
  on_get net h ("https://api.tailscale.com/api/v2/tailnet/" +:+ tailnet +:+ "/devices")
    (api_key, "") = Decoded (JObj body) ->
  dict_get "devices" body = None ->
  get_tailscale_devices net tailnet api_key h
  = (Done (None, Some []),
     h ++ [Get ("https://api.tailscale.com/api/v2/tailnet/" +:+ tailnet +:+ "/devices")
             (api_key, "")]) /\
  snd (sync [] h') = h' ++ [Dnspod.list_call self domain sub_domain].
Proof.
  intros Hreply Hmiss. split; [|apply sync_no_devices_history].
  unfold get_tailscale_devices, requests_get. unfold_M.
  rewrite Hreply. simpl. by rewrite Hmiss.
Qed.

(** ** The branch without a default-line record *)

(** When the name is in the index and no record under it is on the default
    line, the address of the device plays no part in the request: the
    iteration reads the global [ip]. *)
Lemma iteration_no_default_line records d h2 rs :
  records !! record_name_of d sub_domain = Some rs ->
  default_line rs = Done [] ->
  let line := Stdout ("Record " +:+ record_name_of d sub_domain +:+ "." +:+ domain
                        +:+ " default line not exist, set to " +:+ ip d) in
  iteration records d h2 =
  match global_ip with
  | None => (Raised NameError, h2 ++ [line])
  | Some v =>
      after_write (add_record_a net py_repr self v domain
                     (record_name_of d sub_domain) (h2 ++ [line]))
  end.
Proof.
  intros Hhit Hdef line. unfold sync_device, after_write. unfold_M.
  rewrite Hhit, Hdef. fold line. destruct global_ip as [v|]; [|done].
  destruct (add_record_a _ _ _ _ _ _ _) as [[e|?] h']; [|done].
  simpl; by destruct (truthy e).
Qed.
End Reconciler.


(** ** Name normalization *)

Lemma prefix_same s : String.prefix s s = true.
Proof.
  induction s as [|c s IH]; simpl; [done|].
  by destruct (ascii_dec c c).
Qed.

Lemma remove_from_skip old s k :
  String.length s <= k -> remove_from old s k = EmptyString.
Proof.
  revert k; induction s as [|c s IH]; intros k Hk; simpl in *; [done|].
  destruct k as [|k]; [lia|]. apply IH. lia.
Qed.

(** Removing [old] from [short ++ old] gives [short] when [old] occurs at
    the end only. *)
Lemma str_remove_trailing old short :
  old <> EmptyString ->
  only_trailing old short = true ->
  str_remove old (short +:+ old) = short.
Proof.
  intros Hold. unfold str_remove.
  induction short as [|c short IH]; intros Hclean.
  - destruct old as [|c old]; [done|].
    change ("" +:+ String c old) with (String c old).
    cbn [remove_from]. rewrite prefix_same.
    apply remove_from_skip. simpl. lia.
  - cbn [only_trailing] in Hclean. apply andb_prop in Hclean as [Hno Hclean].
    apply negb_true_iff in Hno.
    change (String c short +:+ old) with (String c (short +:+ old)) in *.
    cbn [remove_from]. rewrite Hno. f_equal. by apply IH.
Qed.

Lemma device_of_raw domain item endpoint :
  raw_device domain item endpoint ->
  device_of domain item = Done {| name := fst endpoint; ip := snd endpoint |}.
Proof.
  intros (Hname & Hclean & addresses & Haddr & Hfirst).
  unfold device_of. rewrite Hname, Haddr, Hfirst.
  by rewrite str_remove_trailing.
Qed.

Lemma inventory_history net tailnet api_key h :
  snd (get_tailscale_devices net tailnet api_key h)
  = h ++ [Get ("https://api.tailscale.com/api/v2/tailnet/" +:+ tailnet +:+ "/devices")
            (api_key, "")].
Proof.
  unfold get_tailscale_devices, requests_get. unfold_M.
  destruct (on_get net h _ _) as [d|e| |ret]; simpl; try reflexivity.
  destruct (py_get ret "devices" _) as [ds|]; [|reflexivity].
  destruct (py_iter ds) as [items|]; [|reflexivity].
  by destruct (map_outcome _ items).
Qed.

Lemma map_outcome_Forall2 {A B : Type} (f : A -> outcome B) xs ys :
  map_outcome f xs = Done ys -> Forall2 (fun x y => f x = Done y) xs ys.
Proof.
  revert ys; induction xs as [|x xs IH]; intros ys; simpl.
  - intros [= <-]. constructor.
  - destruct (f x) as [y|] eqn:Hx; [|discriminate].
    destruct (map_outcome f xs) as [ys'|]; [|discriminate].
    intros [= <-]. constructor; [done|]. by apply IH.
Qed.

Lemma device_of_inv domain item d :
  device_of domain item = Done d ->
  exists raw addresses,
    py_item item "name" = Done (JStr raw) /\
    name d = str_remove ("." +:+ domain) raw /\
    py_item item "addresses" = Done addresses /\
    py_first addresses = Done (JStr (ip d)).
Proof.
  unfold device_of.
  destruct (py_item item "name") as [[| | | |raw| |]|]; try discriminate.
  destruct (py_item item "addresses") as [addresses|]; [|discriminate].
  destruct (py_first addresses) as [[| | | |a| |]|] eqn:Hfirst; try discriminate.
  intros [= <-]. by exists raw, addresses.
Qed.

Lemma str_remove_absent old s :
  no_occurrence old s = true -> str_remove old s = s.
Proof.
  unfold str_remove. induction s as [|c s IH]; [done|].
  cbn [no_occurrence remove_from]. intros Hno.
  apply andb_prop in Hno as [Hhere Hrest]. apply negb_true_iff in Hhere.
  rewrite Hhere. f_equal. by apply IH.
Qed.

Lemma append_cons c s t : String c s +:+ t = String c (s +:+ t).
Proof. reflexivity. Qed.

Lemma append_assoc s t u : (s +:+ t) +:+ u = s +:+ t +:+ u.
Proof.
  induction s as [|c s IH]; [done|]. by rewrite !append_cons, IH.
Qed.

Lemma length_append s t : String.length (s +:+ t) = String.length s + String.length t.
Proof.
  induction s as [|c s IH]; [done|]. rewrite append_cons. simpl. by rewrite IH.
Qed.

Lemma prefix_append old s rest :
  String.prefix old s = true -> String.prefix old (s +:+ rest) = true.
Proof.
  revert s; induction old as [|a old IH]; intros s; [by destruct (s +:+ rest)|].
  destruct s as [|b s]; [done|]. rewrite append_cons. simpl.
  destruct (ascii_dec a b); [apply IH|done].
Qed.

Lemma prefix_append_long old s rest :
  String.length old <= String.length s ->
  String.prefix old (s +:+ rest) = String.prefix old s.
Proof.
  revert s; induction old as [|a old IH]; intros s Hlen.
  - by destruct (s +:+ rest), s.
  - destruct s as [|b s]; simpl in Hlen; [lia|]. rewrite append_cons. simpl.
    destruct (ascii_dec a b); [apply IH; lia|done].
Qed.

Lemma prefix_split old s :
  String.prefix old s = true -> exists rest, s = old +:+ rest.
Proof.
  revert s; induction old as [|a old IH]; intros s; [by exists s|].
  destruct s as [|b s]; [done|]. simpl.
  destruct (ascii_dec a b) as [->|]; [|done].
  intros Hp. destruct (IH s Hp) as [rest ->]. by exists rest.
Qed.

(** A string in which [old] occurs splits at the first occurrence. *)
Lemma first_occurrence old s :
  no_occurrence old s = false ->
  exists kept rest, s = kept +:+ old +:+ rest /\ only_trailing old kept = true.
Proof.
  induction s as [|c s IH]; [done|]. cbn [no_occurrence].
  destruct (String.prefix old (String c s)) eqn:Hp; simpl.
  - intros _. destruct (prefix_split _ _ Hp) as [rest ->]. by exists "", rest.
  - intros Hno. destruct (IH Hno) as (kept & rest & -> & Hkept).
    exists (String c kept), rest. split; [done|].
    cbn [only_trailing]. rewrite Hkept, andb_true_r. apply negb_true_iff.
    destruct (String.prefix old (String c kept +:+ old)) eqn:Hq; [|done].
    apply (prefix_append _ _ rest) in Hq.
    rewrite append_assoc, append_cons in Hq. by rewrite Hq in Hp.
Qed.

Lemma remove_from_skip_app old p rest :
  remove_from old (p +:+ rest) (String.length p) = remove_from old rest 0.
Proof.
  induction p as [|c p IH]; [done|]. by rewrite append_cons.
Qed.

(** Removal takes out the first occurrence and goes on behind it. *)
Lemma str_remove_first old kept rest :
  old <> EmptyString ->
  only_trailing old kept = true ->
  str_remove old (kept +:+ old +:+ rest) = kept +:+ str_remove old rest.
Proof.
  intros Hold. unfold str_remove.
  induction kept as [|c kept IH]; intros Hkept.
  - change ("" +:+ old +:+ rest) with (old +:+ rest).
    change ("" +:+ remove_from old rest 0) with (remove_from old rest 0).
    pose proof (prefix_append old old rest (prefix_same old)) as Hp.
    destruct old as [|a old]; [done|]. rewrite append_cons in *.
    cbn [remove_from]. rewrite Hp.
    replace (String.length (String a old) - 1) with (String.length old)
      by (simpl; lia).
    apply remove_from_skip_app.
  - cbn [only_trailing] in Hkept. apply andb_prop in Hkept as [Hno Hkept].
    apply negb_true_iff in Hno. rewrite !append_cons.
    assert (String.prefix old (String c (kept +:+ old +:+ rest)) = false) as Hq.
    { rewrite <- append_cons, <- append_assoc, prefix_append_long; [done|].
      rewrite length_append. lia. }
    cbn [remove_from]. rewrite Hq. f_equal. by apply IH.
Qed.

(** [str.replace(old, '')] removes every occurrence, in the sense of
    [all_removed]. *)
Lemma str_remove_all old :
  old <> EmptyString ->
  forall n s, String.length s <= n -> all_removed old s (str_remove old s).
Proof.
  intros Hold. induction n as [|n IH]; intros s Hlen.
  - destruct s; simpl in Hlen; [|lia]. by constructor.
  - destruct (no_occurrence old s) eqn:Hno.
    + rewrite str_remove_absent by done. by constructor.
    + destruct (first_occurrence old s Hno) as (kept & rest & -> & Hkept).
      rewrite str_remove_first by done. constructor; [done|].
      apply IH. rewrite !length_append in Hlen.
      destruct old; [done|]. simpl in Hlen. lia.
Qed.

(** Conversely, [all_removed] leaves no choice: what it relates a string to
    is the result of the removal. *)
Lemma all_removed_is_str_remove old s out :
  old <> EmptyString -> all_removed old s out -> out = str_remove old s.
Proof.
  intros Hold. induction 1 as [s Hno|kept rest out Hkept _ IH].
  - by rewrite str_remove_absent.
  - by rewrite str_remove_first, IH.
Qed.

(** C9, amended.  Of every raw device name the inventory fetch removes
    every occurrence of [.domain], where [domain] is the tailnet with ['@']
    replaced by ['.'], and keeps the rest unchanged: whenever the fetch
    returns devices, the name of each is its raw name with every occurrence
    removed.  For raw names [short.domain] in which [.domain] occurs at the
    end only, the fetch produces the endpoints named [short], with the
    first address of each device. *)
Theorem name_normalization net tailnet api_key h ret items endpoints :
  on_get net h ("https://api.tailscale.com/api/v2/tailnet/" +:+ tailnet +:+ "/devices")
    (api_key, "") = Decoded ret ->
  py_get ret "devices" (JArr []) = Done (JArr items) ->
  (forall devices,
     fst (get_tailscale_devices net tailnet api_key h) = Done (None, Some devices) ->
     Forall2 (fun item d =>
                exists raw,
                  py_item item "name" = Done (JStr raw) /\
                  all_removed ("." +:+ at_to_dot tailnet) raw (name d))
       items devices) /\
  (Forall2 (raw_device (at_to_dot tailnet)) items endpoints ->
   fst (get_tailscale_devices net tailnet api_key h)
   = Done (None, Some (map (fun e => {| name := fst e; ip := snd e |}) endpoints))).
Proof.
  intros Hreply Hdevices.
  unfold get_tailscale_devices, requests_get. unfold_M.
  rewrite Hreply. simpl. rewrite Hdevices. simpl. split.
  - intros devices.
    destruct (map_outcome _ items) as [l|] eqn:Hmap; [|discriminate].
    simpl. intros [= <-].
    eapply Forall2_impl; [exact (map_outcome_Forall2 _ _ _ Hmap)|].
    intros item d Hd. destruct (device_of_inv _ _ _ Hd) as (raw & _ & Hname & -> & _).
    exists raw. split; [done|].
    by apply (str_remove_all ("." +:+ at_to_dot tailnet) ltac:(done) (String.length raw)).
  - intros Hraw.
    assert (map_outcome (device_of (at_to_dot tailnet)) items
            = Done (map (fun e => {| name := fst e; ip := snd e |}) endpoints)) as ->.
    { clear Hdevices. induction Hraw as [|item e items endpoints Hitem _ IH]; simpl; [done|].
      by rewrite (device_of_raw _ _ _ Hitem), IH. }
    done.
Qed.

(** C9 as stated fails: with tailnet [example.com], the raw name
    [db.example.community.example.com] ends in [.example.com], yet the
    endpoint is not named [db.example.community]: the occurrence of
    [.example.com] inside [.example.community] is removed as well. *)
Lemma name_normalization_counterexample :
  let tailnet := "example.com" in
  let short := "db.example.community" in
  let raw := short +:+ "." +:+ at_to_dot tailnet in
  let net := Sample.net (Sample.inventory [(raw, "100.64.0.1")])
               (Sample.listing []) Sample.accepted in
  fst (get_tailscale_devices net tailnet "tskey" [])
  = Done (None, Some [{| name := "dbmunity"; ip := "100.64.0.1" |}])
  /\ "dbmunity" <> short.
Proof. split; [reflexivity|discriminate]. Qed.

(** On the raw name of the counterexample, both occurrences go. *)
Example all_removed_ex :
  all_removed ".example.com" "db.example.community.example.com" "dbmunity".
Proof.
  apply (str_remove_all ".example.com" ltac:(done) 40 "db.example.community.example.com").
  simpl. lia.
Qed.

(** ** Failures before the loop *)

Lemma list_records_history net py_repr self domain sub_domain h :
  snd (Dnspod.get_domain_records net py_repr self domain sub_domain h)
  = h ++ [Dnspod.list_call self domain sub_domain].
Proof.
  unfold Dnspod.get_domain_records. unfold_M.
  pose proof (request_history net py_repr self "Record.List"
                (Dnspod.list_params domain sub_domain) h) as Hh.
  destruct (Dnspod._request _ _ _ _ _ h) as [[[err r]|e] h1]; simpl in *; subst h1;
    [|reflexivity].
  destruct (truthy err); [reflexivity|].
  destruct (match r with Some _ => _ | None => _ end) as [rs|]; [|reflexivity].
  destruct (py_iter rs) as [items|]; [|reflexivity].
  destruct (Dnspod.group_records items ∅); reflexivity.
Qed.

(** C7. Fail-fast before any write.  When the inventory fetch returns an
    error, [main] sends nothing to the DNS provider: after the inventory
    request it only prints the error to stderr and exits with status 1.
    And, on its own: when the record-list fetch inside [sync] returns an
    error, [sync] returns that error right after the list request, so no
    endpoint is processed. *)
Theorem fail_fast_before_any_write net py_repr global_ip cfg h err ds h1
    net' py_repr' global_ip' self domain sub_domain devices h' err' rs h1' :
  (get_tailscale_devices net (TAILSCALE_TAILNET cfg) (TAILSCALE_API_KEY cfg) h
   = (Done (err, ds), h1) ->
   truthy err = true ->
   main net py_repr global_ip cfg h
   = (Raised (SystemExit 1),
      h ++ [Get ("https://api.tailscale.com/api/v2/tailnet/" +:+ TAILSCALE_TAILNET cfg
                   +:+ "/devices") (TAILSCALE_API_KEY cfg, "");
            Stderr ("Get tailscale devices failed: " +:+ default "" err)])) /\
  (Dnspod.get_domain_records net' py_repr' self domain sub_domain h'
   = (Done (err', rs), h1') ->
   truthy err' = true ->
   Dnspod.sync_devices_to_domain net' py_repr' global_ip' self devices domain sub_domain h'
   = (Done err', h' ++ [Dnspod.list_call self domain sub_domain])).
Proof.
  split.
  - intros Hinv Herr.
    pose proof (inventory_history net (TAILSCALE_TAILNET cfg) (TAILSCALE_API_KEY cfg) h) as Hh.
    rewrite Hinv in Hh. simpl in Hh. subst h1.
    unfold main. unfold mbind at 1. unfold M_bind at 1. rewrite Hinv, Herr.
    unfold sys_exit. unfold_M. by rewrite <- app_assoc.
  - intros Hlist Herr'.
    pose proof (list_records_history net' py_repr' self domain sub_domain h') as Hh.
    rewrite Hlist in Hh. simpl in Hh. subst h1'.
    unfold Dnspod.sync_devices_to_domain. unfold mbind at 1. unfold M_bind at 1.
    by rewrite Hlist, Herr'.
Qed.

(** ** The missing default line *)

(** C3 does not hold of the code.  The device [host] is matched by a record
    on another line only.  The create call of that branch passes the global
    name [ip], not [device.ip]: without such a global the run stops with
    [NameError] after the log line and no create call is sent; with one, the
    create call carries that global's value, not the address of [host]. *)
Theorem missing_default_line_ignores_device_address :
  let net := Sample.net (Sample.inventory []) (Sample.listing [Sample.telecom])
               Sample.accepted in
  let line := Stdout "Record host.ts.example.org default line not exist, set to 100.64.0.1" in
  let list_call := Dnspod.list_call Sample.dnspod "example.org" (Some "ts") in
  Dnspod.sync_devices_to_domain net Sample.py_repr None Sample.dnspod
    [Sample.host] "example.org" (Some "ts") []
  = (Raised NameError, [list_call; line]) /\
  Dnspod.sync_devices_to_domain net Sample.py_repr (Some "9.9.9.9") Sample.dnspod
    [Sample.host] "example.org" (Some "ts") []
  = (Done None,
     [list_call; line; Dnspod.create_call Sample.dnspod "example.org" "9.9.9.9" "host.ts"]) /\
  Dnspod.create_call Sample.dnspod "example.org" "9.9.9.9" "host.ts"
  <> Dnspod.create_call Sample.dnspod "example.org" (ip Sample.host) "host.ts".
Proof.
  repeat split; [vm_compute; reflexivity..|].
  intros Heq. apply create_call_inj in Heq. discriminate.
Qed.

(** ** The properties on sample runs *)

Import Sample.

Lemma new_endpoint_create_witness :
  let net := net (inventory []) (listing []) accepted in
  let h3 := [list_call; Stdout "Record host.ts.example.org not exist, set to 100.64.0.1";
             Dnspod.create_call dnspod domain "100.64.0.1" "host.ts"] in
  exists c,
    Dnspod.sync_device net py_repr None dnspod ∅ domain sub_domain host [list_call] = (c, h3) /\
    Dnspod.sync_devices_to_domain net py_repr None dnspod [host; nas] domain sub_domain []
    = Dnspod.resume c (Dnspod.sync_loop net py_repr None dnspod ∅ domain sub_domain [nas]) h3.
Proof.
  intros net h3.
  refine (new_endpoint_create net py_repr None dnspod domain sub_domain ∅ [] host [nas]
            [] [list_call] [list_call] _ _ _); vm_compute; reflexivity.
Defined.

Lemma changed_address_update_witness :
  let net := net (inventory []) (listing [stale]) accepted in
  let records : gmap string (list json) := {[ "host.ts" := [stale] ]} in
  let h3 := [list_call;
             Stdout "Record host.ts.example.org from 1.1.1.1 change to 100.64.0.1";
             Dnspod.update_call dnspod domain "100.64.0.1" "host.ts" (JStr "7")] in
  exists c,
    Dnspod.sync_device net py_repr None dnspod records domain sub_domain host [list_call]
    = (c, h3) /\
    Dnspod.sync_devices_to_domain net py_repr None dnspod [host; nas] domain sub_domain []
    = Dnspod.resume c (Dnspod.sync_loop net py_repr None dnspod records domain sub_domain [nas]) h3.
Proof.
  intros net records h3.
  refine (changed_address_update net py_repr None dnspod domain sub_domain records [] host
            [nas] [] [list_call] [list_call] [stale] stale (JStr "A") (JStr "1.1.1.1")
            (JStr "7") _ _ _ _ _ _ _ _); vm_compute; reflexivity.
Defined.

Lemma unchanged_address_noop_witness :
  let net := net (inventory []) (listing [fresh]) accepted in
  let records : gmap string (list json) := {[ "host.ts" := [fresh] ]} in
  let h3 := [list_call;
             Stdout "Record host.ts.example.org is already point to 100.64.0.1, do nothing"] in
  Dnspod.sync_device net py_repr None dnspod records domain sub_domain host [list_call]
  = (Done None, h3) /\
  Dnspod.sync_devices_to_domain net py_repr None dnspod [host; nas] domain sub_domain []
  = Dnspod.sync_loop net py_repr None dnspod records domain sub_domain [nas] h3.
Proof.
  intros net records h3.
  refine (unchanged_address_noop net py_repr None dnspod domain sub_domain records [] host
            [nas] [] [list_call] [list_call] [fresh] fresh [] (JStr "A") (JStr "100.64.0.1")
            _ _ _ _ _ _ _ _); vm_compute; reflexivity.
Defined.

Lemma idempotent_at_convergence_witness :
  let net := net (inventory []) (listing [fresh; fresh_nas]) accepted in
  Dnspod.sync_devices_to_domain net py_repr None dnspod [host; nas] domain sub_domain []
  = (Done None,
     [list_call;
      Stdout "Record host.ts.example.org is already point to 100.64.0.1, do nothing";
      Stdout "Record nas.ts.example.org is already point to 100.64.0.2, do nothing"]).
Proof.
  intros net.
  refine (idempotent_at_convergence net py_repr None dnspod domain sub_domain
            {[ "host.ts" := [fresh]; "nas.ts" := [fresh_nas] ]} [host; nas] [] [list_call] _ _).
  - vm_compute; reflexivity.
  - repeat constructor.
    + exists [fresh], fresh, [], (JStr "A"), (JStr "100.64.0.1").
      repeat split; vm_compute; reflexivity.
    + exists [fresh_nas], fresh_nas, [], (JStr "A"), (JStr "100.64.0.2").
      repeat split; vm_compute; reflexivity.
Defined.

Lemma fail_fast_on_write_error_witness :
  let net := net (inventory []) (listing []) rejected in
  Dnspod.sync_devices_to_domain net py_repr None dnspod [host; nas] domain sub_domain []
  = (Done rejection,
     [list_call; Stdout "Record host.ts.example.org not exist, set to 100.64.0.1";
      Dnspod.create_call dnspod domain "100.64.0.1" "host.ts"]).
Proof.
  intros net.
  refine (fail_fast_on_write_error net py_repr None dnspod domain sub_domain ∅ [] host [nas]
            [] [list_call] [list_call] (Done (Some rejection)) _
            [Stdout "Record host.ts.example.org not exist, set to 100.64.0.1"] rejection
            _ _ _ _ _).
  - vm_compute; reflexivity.
  - vm_compute; reflexivity.
  - vm_compute; reflexivity.
  - left. exists "100.64.0.1". vm_compute; reflexivity.
  - reflexivity.
Defined.

Lemma fail_fast_before_any_write_witness :
  main (net (RequestException "401 Client Error") (listing [stale]) accepted)
    py_repr None cfg []
  = (Raised (SystemExit 1),
     [Get "https://api.tailscale.com/api/v2/tailnet/user@example.com/devices" ("tskey", "");
      Stderr "Get tailscale devices failed: Call Tailscale API failed: 401 Client Error"]) /\
  Dnspod.sync_devices_to_domain
    (net (inventory [("host.user.example.com", "100.64.0.1")]) rejected accepted)
    py_repr None dnspod [host; nas] domain sub_domain []
  = (Done rejection, [list_call]).
Proof.
  pose proof (fail_fast_before_any_write
                (net (RequestException "401 Client Error") (listing [stale]) accepted)
                py_repr None cfg []
                (Some "Call Tailscale API failed: 401 Client Error") None
                [Get "https://api.tailscale.com/api/v2/tailnet/user@example.com/devices"
                   ("tskey", "")]
                (net (inventory [("host.user.example.com", "100.64.0.1")]) rejected accepted)
                py_repr None dnspod domain sub_domain [host; nas]
                [] rejection None [list_call]) as [Hmain Hsync].
  split.
  - apply Hmain; vm_compute; reflexivity.
  - apply Hsync; vm_compute; reflexivity.
Defined.

Lemma provider_rejected_is_error_witness :
  fst (Dnspod.get_domain_records (net (inventory []) rejected accepted) py_repr dnspod
         domain sub_domain [])
  = Done (rejection, None) /\
  fst (Dnspod.add_record_a (net (inventory []) (listing [stale]) rejected) py_repr dnspod
         "100.64.0.1" domain "host.ts" [list_call])
  = Done rejection /\
  fst (Dnspod.modify_record_a (net (inventory []) (listing [stale]) rejected) py_repr dnspod
         "100.64.0.1" domain "host.ts" (JStr "7") [list_call])
  = Done rejection.
Proof.
  pose proof (fun w h =>
                provider_rejected_is_error w py_repr dnspod domain sub_domain h
                  [status "6" "Invalid domain"]
                  [("code", JStr "6"); ("message", JStr "Invalid domain")] (JStr "6")
                  "100.64.0.1" "host.ts" (JStr "7") eq_refl eq_refl eq_refl) as H.
  split; [|split].
  - apply (H (net (inventory []) rejected accepted) []). reflexivity.
  - apply (H (net (inventory []) (listing [stale]) rejected) [list_call]). reflexivity.
  - apply (H (net (inventory []) (listing [stale]) rejected) [list_call]). reflexivity.
Defined.

Lemma missing_devices_key_is_empty_witness :
  let net := net (Decoded (JObj [("message", JStr "no devices")])) (listing [stale]) accepted in
  get_tailscale_devices net "user@example.com" "tskey" []
  = (Done (None, Some []),
     [Get "https://api.tailscale.com/api/v2/tailnet/user@example.com/devices" ("tskey", "")]) /\
  snd (Dnspod.sync_devices_to_domain net py_repr None dnspod [] domain sub_domain [])
  = [list_call].
Proof.
  intros net.
  refine (missing_devices_key_is_empty net py_repr None dnspod domain sub_domain
            "user@example.com" "tskey" [("message", JStr "no devices")] [] [] _ _);
    reflexivity.
Defined.

Lemma name_normalization_witness :
  let net := net (inventory [("yangtaodeimac.swulling.gmail.com", "100.64.0.9")])
               (listing []) accepted in
  let item := JObj [("name", JStr "yangtaodeimac.swulling.gmail.com");
                    ("addresses", JArr [JStr "100.64.0.9"])] in
  let device := {| name := "yangtaodeimac"; ip := "100.64.0.9" |} in
  Forall2 (fun item d =>
             exists raw,
               py_item item "name" = Done (JStr raw) /\
               all_removed ("." +:+ at_to_dot "swulling@gmail.com") raw (name d))
    [item] [device] /\
  fst (get_tailscale_devices net "swulling@gmail.com" "tskey" [])
  = Done (None, Some [device]).
Proof.
  intros net item device.
  pose proof (name_normalization net "swulling@gmail.com" "tskey" []
                (JObj [("devices", JArr [item])]) [item]
                [("yangtaodeimac", "100.64.0.9")] eq_refl eq_refl) as [Hall Htrailing].
  split.
  - apply Hall. reflexivity.
  - apply Htrailing. repeat constructor.
    exists (JArr [JStr "100.64.0.9"]). split; reflexivity.
Defined.

(** * Further properties *)

(** ** One request of the DNS provider *)

Section Requests.
Variable net : world.
Variable py_repr : json -> string.
Variable self : Dnspod.t.


(** X2.  The list operation keeps the same convention: a non-empty error with
    no index, or no error with an index. *)
Theorem list_error_or_index domain sub_domain h err rs h' :
  Dnspod.get_domain_records net py_repr self domain sub_domain h = (Done (err, rs), h') ->
  (truthy err = true /\ rs = None) \/
  (err = None /\ exists records, rs = Some records).
Proof.
  unfold Dnspod.get_domain_records. unfold_M.
  destruct (Dnspod._request _ _ _ _ _ h) as [[[e r]|?] h1]; [|discriminate].
  destruct (truthy e) eqn:He.
  - intros [= <- <- _]. by left.
  - destruct (match r with Some _ => _ | None => _ end) as [v|]; [|discriminate].
    destruct (py_iter v) as [items|]; [|discriminate].
    destruct (Dnspod.group_records items ∅) as [records|]; [|discriminate].
    intros [= <- <- _]. right. eauto.
Qed.

(** What each operation makes of the result of its own [_request]. *)
Lemma list_of_request domain sub_domain h :
  fst (Dnspod.get_domain_records net py_repr self domain sub_domain h) =
  match Dnspod._request net py_repr self "Record.List"
          (Dnspod.list_params domain sub_domain) h with
  | (Done (err, r), _) =>
      if truthy err then Done (err, None)
      else
        match (match r with
               | Some ret => py_get ret "records" (JArr [])
               | None => Raised AttributeError
               end) with
        | Raised e => Raised e
        | Done rs =>
            match py_iter rs with
            | Raised e => Raised e
            | Done items =>
                match Dnspod.group_records items ∅ with
                | Raised e => Raised e
                | Done records => Done (None, Some records)
                end
            end
        end
  | (Raised e, _) => Raised e
  end.
Proof.
  unfold Dnspod.get_domain_records. unfold_M.
  destruct (Dnspod._request _ _ _ _ _ h) as [[[err r]|e] h1]; [|done].
  destruct (truthy err); [done|].
  destruct (match r with Some _ => _ | None => _ end) as [rs|]; [|done].
  destruct (py_iter rs) as [items|]; [|done].
  by destruct (Dnspod.group_records items ∅).
Qed.

Lemma add_of_request ip' domain record_name h :
  fst (Dnspod.add_record_a net py_repr self ip' domain record_name h) =
  match Dnspod._request net py_repr self "Record.Create"
          [("domain", JStr domain); ("sub_domain", JStr record_name);
           ("record_type", JStr "A"); ("record_line", JStr "默认");
           ("value", JStr ip')] h with
  | (Done (err, _), _) => Done (if truthy err then err else None)
  | (Raised e, _) => Raised e
  end.
Proof.
  unfold Dnspod.add_record_a. unfold_M.
  destruct (Dnspod._request _ _ _ _ _ h) as [[[err r]|e] h1]; [|done].
  by destruct (truthy err).
Qed.

Lemma modify_of_request ip' domain record_name record_id h :
  fst (Dnspod.modify_record_a net py_repr self ip' domain record_name record_id h) =
  match Dnspod._request net py_repr self "Record.Modify"
          [("domain", JStr domain); ("sub_domain", JStr record_name);
           ("record_id", record_id);
           ("record_type", JStr "A"); ("record_line", JStr "默认");
           ("value", JStr ip')] h with
  | (Done (err, _), _) => Done (if truthy err then err else None)
  | (Raised e, _) => Raised e
  end.
Proof.
  unfold Dnspod.modify_record_a. unfold_M.
  destruct (Dnspod._request _ _ _ _ _ h) as [[[err r]|e] h1]; [|done].
  by destruct (truthy err).
Qed.

(** [_request] as a function of the reply to its own request. *)
Lemma request_of_reply path params h :
  Dnspod._request net py_repr self path params h =
  let call := Post ("https://dnsapi.cn/" +:+ path) (Dnspod.request_data self params) in
  match on_post net h ("https://dnsapi.cn/" +:+ path) (Dnspod.request_data self params) with
  | NoReply detail => (Raised (TransportError detail), h ++ [call])
  | RequestException e => (Done (Some ("Call Dnspod API failed: " +:+ e), None), h ++ [call])
  | ValueError => (Done (Some "Dnspod API response json decode failed.", None), h ++ [call])
  | Decoded ret =>
      match py_get ret "status" (JObj []) with
      | Raised e => (Raised e, h ++ [call])
      | Done status =>
          match py_get status "code" JNull with
          | Raised e => (Raised e, h ++ [call])
          | Done code =>
              if eq_str code "1" then (Done (None, Some ret), h ++ [call])
              else
                match py_get status "message" JNull with
                | Raised e => (Raised e, h ++ [call])
                | Done message =>
                    (Done (Some ("Dnspod API response status != 1: "
                                   +:+ Dnspod.py_str py_repr code +:+ "/"
                                   +:+ Dnspod.py_str py_repr message), None), h ++ [call])
                end
          end
      end
  end.
Proof.
  unfold Dnspod._request, Dnspod.requests_post. unfold_M.
  destruct (on_post net h _ _) as [d|e| |ret]; simpl; try done.
  destruct (py_get ret "status" _) as [status|]; simpl; [|done].
  destruct (py_get status "code" _) as [code|]; simpl; [|done].
  destruct (eq_str code "1"); simpl; [done|].
  by destruct (py_get status "message" _).
Qed.

Ltac by_own_reply Hreply :=
  rewrite ?list_of_request, ?add_of_request, ?modify_of_request, request_of_reply;
  unfold Dnspod.list_call, Dnspod.create_call, Dnspod.update_call, reply_to in Hreply;
  injection Hreply as Hreply;
  try change ("https://dnsapi.cn/" +:+ "Record.List") with "https://dnsapi.cn/Record.List";
  try change ("https://dnsapi.cn/" +:+ "Record.Create")
        with "https://dnsapi.cn/Record.Create";
  try change ("https://dnsapi.cn/" +:+ "Record.Modify")
        with "https://dnsapi.cn/Record.Modify";
  cbv zeta; rewrite Hreply.

(** X3.  An envelope whose status code is the str ['1'] is success: a
    [_request] whose own request gets it hands the body back, a create or
    an update whose own request gets it returns [None]. *)
Theorem accepted_is_success h env st ip' domain record_name record_id path params :
  dict_get "status" env = Some (JObj st) ->
  dict_get "code" st = Some (JStr "1") ->
  (reply_to net h (Post ("https://dnsapi.cn/" +:+ path) (Dnspod.request_data self params))
   = Some (Decoded (JObj env)) ->
   fst (Dnspod._request net py_repr self path params h) = Done (None, Some (JObj env))) /\
  (reply_to net h (Dnspod.create_call self domain ip' record_name)
   = Some (Decoded (JObj env)) ->
   fst (Dnspod.add_record_a net py_repr self ip' domain record_name h) = Done None) /\
  (reply_to net h (Dnspod.update_call self domain ip' record_name record_id)
   = Some (Decoded (JObj env)) ->
   fst (Dnspod.modify_record_a net py_repr self ip' domain record_name record_id h)
   = Done None).
Proof.
  intros Hstatus Hcode.
  repeat split; intros Hreply; by_own_reply Hreply; simpl;
    by rewrite Hstatus; simpl; rewrite Hcode.
Qed.

(** X4.  An HTTP error status (an exception of [raise_for_status] or [json]
    that is a [RequestException]) on the request of an operation makes that
    operation return the text ['Call Dnspod API failed: '] followed by the
    text of the exception, and no value. *)
Theorem http_failure_is_error h e domain sub_domain ip' record_name record_id :
  let err := "Call Dnspod API failed: " +:+ e in
  (reply_to net h (Dnspod.list_call self domain sub_domain) = Some (RequestException e) ->
   fst (Dnspod.get_domain_records net py_repr self domain sub_domain h)
   = Done (Some err, None)) /\
  (reply_to net h (Dnspod.create_call self domain ip' record_name)
   = Some (RequestException e) ->
   fst (Dnspod.add_record_a net py_repr self ip' domain record_name h) = Done (Some err)) /\
  (reply_to net h (Dnspod.update_call self domain ip' record_name record_id)
   = Some (RequestException e) ->
   fst (Dnspod.modify_record_a net py_repr self ip' domain record_name record_id h)
   = Done (Some err)).
Proof.
  intros err. repeat split; intros Hreply; by_own_reply Hreply; reflexivity.
Qed.

(** X5.  A body that is not JSON (a plain [ValueError] of [json]) on the
    request of an operation makes that operation return the decode-failure
    text, and no value. *)
Theorem undecodable_body_is_error h domain sub_domain ip' record_name record_id :
  let err := "Dnspod API response json decode failed." in
  (reply_to net h (Dnspod.list_call self domain sub_domain) = Some ValueError ->
   fst (Dnspod.get_domain_records net py_repr self domain sub_domain h)
   = Done (Some err, None)) /\
  (reply_to net h (Dnspod.create_call self domain ip' record_name) = Some ValueError ->
   fst (Dnspod.add_record_a net py_repr self ip' domain record_name h) = Done (Some err)) /\
  (reply_to net h (Dnspod.update_call self domain ip' record_name record_id)
   = Some ValueError ->
   fst (Dnspod.modify_record_a net py_repr self ip' domain record_name record_id h)
   = Done (Some err)).
Proof.
  intros err. repeat split; intros Hreply; by_own_reply Hreply; reflexivity.
Qed.

(** X6.  A decoded dict without a ['status'] key, as the answer to the
    request of an operation, counts as a rejection: that operation returns
    the error text with [None] for both the code and the message. *)
Theorem missing_status_is_rejection h env domain sub_domain ip' record_name record_id :
  dict_get "status" env = None ->
  let err := "Dnspod API response status != 1: None/None" in
  (reply_to net h (Dnspod.list_call self domain sub_domain) = Some (Decoded (JObj env)) ->
   fst (Dnspod.get_domain_records net py_repr self domain sub_domain h)
   = Done (Some err, None)) /\
  (reply_to net h (Dnspod.create_call self domain ip' record_name)
   = Some (Decoded (JObj env)) ->
   fst (Dnspod.add_record_a net py_repr self ip' domain record_name h) = Done (Some err)) /\
  (reply_to net h (Dnspod.update_call self domain ip' record_name record_id)
   = Some (Decoded (JObj env)) ->
   fst (Dnspod.modify_record_a net py_repr self ip' domain record_name record_id h)
   = Done (Some err)).
Proof.
  intros Hstatus err. repeat split; intros Hreply; by_own_reply Hreply; simpl;
    by rewrite Hstatus.
Qed.

(** X7.  A decoded body that is not a dict (a list, a string, a number,
    [null]) has no [get]: the operation whose request gets it raises
    [AttributeError] instead of returning an error text. *)
Theorem non_dict_body_raises h ret domain sub_domain ip' record_name record_id :
  ~ is_dict ret ->
  (reply_to net h (Dnspod.list_call self domain sub_domain) = Some (Decoded ret) ->
   fst (Dnspod.get_domain_records net py_repr self domain sub_domain h)
   = Raised AttributeError) /\
  (reply_to net h (Dnspod.create_call self domain ip' record_name) = Some (Decoded ret) ->
   fst (Dnspod.add_record_a net py_repr self ip' domain record_name h)
   = Raised AttributeError) /\
  (reply_to net h (Dnspod.update_call self domain ip' record_name record_id)
   = Some (Decoded ret) ->
   fst (Dnspod.modify_record_a net py_repr self ip' domain record_name record_id h)
   = Raised AttributeError).
Proof.
  intros Hret. repeat split; intros Hreply; by_own_reply Hreply;
    destruct ret; simpl in *; try reflexivity; by destruct Hret.
Qed.

(** X8.  When the [requests.post] call of an operation itself raises (no
    connection, timeout), nothing catches it: that operation raises, and no
    error text is returned. *)
Theorem no_reply_raises h detail domain sub_domain ip' record_name record_id :
  (reply_to net h (Dnspod.list_call self domain sub_domain) = Some (NoReply detail) ->
   fst (Dnspod.get_domain_records net py_repr self domain sub_domain h)
   = Raised (TransportError detail)) /\
  (reply_to net h (Dnspod.create_call self domain ip' record_name)
   = Some (NoReply detail) ->
   fst (Dnspod.add_record_a net py_repr self ip' domain record_name h)
   = Raised (TransportError detail)) /\
  (reply_to net h (Dnspod.update_call self domain ip' record_name record_id)
   = Some (NoReply detail) ->
   fst (Dnspod.modify_record_a net py_repr self ip' domain record_name record_id h)
   = Raised (TransportError detail)).
Proof.
  repeat split; intros Hreply; by_own_reply Hreply; reflexivity.
Qed.
End Requests.

(** ** The Record Index *)

Section Index.
Variable net : world.
Variable py_repr : json -> string.
Variable self : Dnspod.t.

Lemma named_str r k0 k :
  py_item r "name" = Done (JStr k0) -> named k r = String.eqb k0 k.
Proof. intros Hr. unfold named. by rewrite Hr. Qed.

(** Grouping appends, under each name, the records of that name in the
    order of the list. *)
Lemma group_records_lookup items :
  Forall (fun r => exists k, py_item r "name" = Done (JStr k)) items ->
  forall acc : gmap string (list json),
  exists m,
    Dnspod.group_records items acc = Done m /\
    forall k, m !! k =
              match acc !! k with
              | Some l => Some (l ++ List.filter (named k) items)
              | None =>
                  match List.filter (named k) items with
                  | [] => None
                  | l => Some l
                  end
              end.
Proof.
  induction 1 as [|r items [k0 Hr] _ IH]; intros acc.
  - exists acc. split; [done|]. intros k. simpl.
    destruct (acc !! k) as [l|]; [by rewrite app_nil_r|done].
  - simpl. rewrite Hr.
    destruct (IH (<[k0 := default [] (acc !! k0) ++ [r]]> acc)) as (m & Hm & Hlook).
    exists m. split; [done|]. intros k. rewrite Hlook, (named_str r k0 k Hr).
    destruct (String.eqb_spec k0 k) as [->|Hne].
    + rewrite lookup_insert_eq. destruct (acc !! k) as [l|]; simpl.
      * by rewrite <- app_assoc.
      * done.
    + by rewrite lookup_insert_ne.
Qed.

(** X9.  When the list request succeeds with the body [ret] and every listed
    record is a dict with a str name, the index maps each name to the
    records of exactly that name, in the order of the reply, and has no
    entry for any other name. *)
Theorem index_groups_by_name domain sub_domain h ret h1 items :
  Dnspod._request net py_repr self "Record.List" (Dnspod.list_params domain sub_domain) h
  = (Done (None, Some ret), h1) ->
  py_get ret "records" (JArr []) = Done (JArr items) ->
  Forall (fun r => exists k, py_item r "name" = Done (JStr k)) items ->
  exists records : gmap string (list json),
    Dnspod.get_domain_records net py_repr self domain sub_domain h
    = (Done (None, Some records), h1) /\
    forall k, records !! k =
              match List.filter (named k) items with
              | [] => None
              | l => Some l
              end.
Proof.
  intros Hreq Hrecords Hitems.
  destruct (group_records_lookup items Hitems ∅) as (m & Hm & Hlook).
  exists m. split.
  - unfold Dnspod.get_domain_records. unfold_M. rewrite Hreq. simpl.
    rewrite Hrecords. simpl. by rewrite Hm.
  - intros k. by rewrite Hlook, lookup_empty.
Qed.

Lemma group_records_raises pre r post e :
  Forall (fun r => exists k, py_item r "name" = Done (JStr k)) pre ->
  py_item r "name" = Raised e ->
  forall acc, Dnspod.group_records (pre ++ r :: post) acc = Raised e.
Proof.
  induction 1 as [|x pre [k0 Hx] _ IH]; intros Hr acc; simpl.
  - by rewrite Hr.
  - rewrite Hx. by apply IH.
Qed.

(** X10.  The first listed record that is not a dict ([TypeError]) or has no
    ['name'] ([KeyError]) makes [get_domain_records] raise: no index and no
    error text are returned. *)
Theorem malformed_record_raises domain sub_domain h ret h1 pre r post e :
  Dnspod._request net py_repr self "Record.List" (Dnspod.list_params domain sub_domain) h
  = (Done (None, Some ret), h1) ->
  py_get ret "records" (JArr []) = Done (JArr (pre ++ r :: post)) ->
  Forall (fun r => exists k, py_item r "name" = Done (JStr k)) pre ->
  py_item r "name" = Raised e ->
  Dnspod.get_domain_records net py_repr self domain sub_domain h = (Raised e, h1).
Proof.
  intros Hreq Hrecords Hpre Hr.
  unfold Dnspod.get_domain_records. unfold_M. rewrite Hreq. simpl.
  rewrite Hrecords. simpl. by rewrite (group_records_raises pre r post e Hpre Hr).
Qed.

(** X11.  The records kept for the comparison are those on the default line, in
    the order of the index, when every record under the name has a
    ['line']. *)
Theorem default_line_is_filter rs :
  Forall (fun r => exists v, py_item r "line" = Done v) rs ->
  Dnspod.default_line rs = Done (List.filter on_default_line rs).
Proof.
  induction 1 as [|r rs [v Hr] _ IH]; simpl; [done|].
  rewrite Hr, IH. unfold on_default_line. by rewrite Hr.
Qed.

Lemma default_line_key_error rs :
  Forall is_dict rs ->
  Exists (fun r => py_item r "line" = Raised KeyError) rs ->
  Dnspod.default_line rs = Raised KeyError.
Proof.
  induction 1 as [|r rs Hr _ IH]; intros Hex; [by inversion Hex|].
  simpl. destruct r as [| | | | | |d]; try by destruct Hr.
  simpl in *. destruct (dict_get "line" d) as [v|] eqn:Hline; [|done].
  inversion Hex as [? ? Hbad|? ? Hrest]; subst.
  - simpl in Hbad. by rewrite Hline in Hbad.
  - by rewrite (IH Hrest).
Qed.

Lemma group_records_entries items :
  forall (acc m : gmap string (list json)),
    Dnspod.group_records items acc = Done m ->
    (forall k rs, acc !! k = Some rs ->
                  Forall (fun r => is_dict r /\ named k r = true) rs) ->
    forall k rs, m !! k = Some rs ->
                 Forall (fun r => is_dict r /\ named k r = true) rs.
Proof.
  induction items as [|r items IH]; intros acc m; simpl.
  - intros [= <-]. auto.
  - destruct (py_item r "name") as [[| | | |key| |]|] eqn:Hr; try discriminate;
      intros Hm Hacc; try (by apply (IH acc m Hm Hacc)).
    apply (IH _ m Hm). intros k rs.
    destruct (decide (key = k)) as [<-|Hne].
    + rewrite lookup_insert_eq. intros [= <-]. apply Forall_app. split.
      * destruct (acc !! key) as [l|] eqn:Hl; simpl; [by apply Hacc|constructor].
      * repeat constructor.
        -- destruct r; simpl in Hr; try discriminate. done.
        -- rewrite (named_str r key key Hr). apply String.eqb_refl.
    + rewrite lookup_insert_ne by done. apply Hacc.
Qed.

Lemma index_entries domain sub_domain h records h1 k rs :
  Dnspod.get_domain_records net py_repr self domain sub_domain h
  = (Done (None, Some records), h1) ->
  records !! k = Some rs ->
  Forall (fun r => is_dict r /\ named k r = true) rs.
Proof.
  unfold Dnspod.get_domain_records. unfold_M.
  destruct (Dnspod._request _ _ _ _ _ h) as [[[e r]|?] h']; [|discriminate].
  destruct (truthy e); [discriminate|].
  destruct (match r with Some _ => _ | None => _ end) as [v|]; [|discriminate].
  destruct (py_iter v) as [items|]; [|discriminate].
  destruct (Dnspod.group_records items ∅) as [m|] eqn:Hm; [|discriminate].
  intros [= <- _] Hk.
  apply (group_records_entries items ∅ m Hm) with (k := k); [|done].
  intros k' rs'. by rewrite lookup_empty.
Qed.

(** X12.  Whatever the provider lists, every record that the index holds under a
    name is a dict whose ['name'] is that name. *)
Theorem index_entries_are_named domain sub_domain h records h1 k rs :
  Dnspod.get_domain_records net py_repr self domain sub_domain h
  = (Done (None, Some records), h1) ->
  records !! k = Some rs ->
  Forall (fun r => is_dict r /\ named k r = true) rs.
Proof. apply index_entries. Qed.
End Index.

(** ** What the loop sends *)

Section Loop.
Variable net : world.
Variable py_repr : json -> string.
Variable global_ip : option string.
Variable self : Dnspod.t.
Variable domain : string.
Variable sub_domain : option string.

Lemma loop_event_mono devices devices' ev :
  (forall d, In d devices -> In d devices') ->
  loop_event self global_ip domain sub_domain devices ev ->
  loop_event self global_ip domain sub_domain devices' ev.
Proof.
  intros Hsub. destruct ev; simpl; try done.
  intros (d & Hd & Hev). exists d. split; [by apply Hsub|done].
Qed.

Ltac after_write_call Hh :=
  match goal with
  | |- context [Dnspod.add_record_a ?a ?b ?c ?i ?dm ?n ?hw] =>
      pose proof (add_record_a_history a b c dm i n hw) as Hh;
      destruct (Dnspod.add_record_a a b c i dm n hw) as [[?e|?] ?h']
  | |- context [Dnspod.modify_record_a ?a ?b ?c ?i ?dm ?n ?r ?hw] =>
      pose proof (modify_record_a_history a b c dm i n r hw) as Hh;
      destruct (Dnspod.modify_record_a a b c i dm n r hw) as [[?e|?] ?h']
  end; simpl in Hh; subst.

(** One iteration appends at most a log line and one request, and that
    request is a create or an update for the record name of its device. *)
Ltac appends_nothing :=
  exists []; split; [by rewrite app_nil_r|split; [constructor|simpl; lia]].

Ltac appends_line :=
  eexists [_]; split; [done|split; [by repeat constructor|simpl; lia]].

Lemma iteration_events records d h2 :
  exists seg,
    snd (Dnspod.sync_device net py_repr global_ip self records domain sub_domain d h2)
    = h2 ++ seg /\
    Forall (loop_event self global_ip domain sub_domain [d]) seg /\
    length (List.filter is_post seg) <= 1.
Proof.
  unfold Dnspod.sync_device. unfold_M.
  destruct (records !! _) as [rs|].
  - destruct (Dnspod.default_line rs) as [[|r others]|]; [| |appends_nothing].
    + destruct global_ip as [v|] eqn:Hg.
      * after_write_call Hh; eexists [_; _];
          (split; [try destruct (truthy e); by rewrite <- app_assoc|]);
          (split; [|simpl; lia]); repeat constructor;
          exists d; (split; [by left|]); left; exists v; eauto.
      * appends_line.
    + destruct (py_item r "type") as [type|]; [|appends_nothing].
      destruct (eq_str type "A").
      * destruct (py_item r "value") as [value|]; [|appends_nothing].
        destruct (eq_str value (ip d)).
        { appends_line. }
        destruct (py_item r "id") as [record_id|];
          [|appends_line].
        after_write_call Hh; eexists [_; _];
          (split; [try destruct (truthy e); by rewrite <- app_assoc|]);
          (split; [|simpl; lia]); repeat constructor;
          exists d; (split; [by left|]); right; eauto.
      * destruct (py_item r "value") as [value|]; [|appends_nothing].
        destruct (py_item r "id") as [record_id|];
          [|appends_line].
        after_write_call Hh; eexists [_; _];
          (split; [try destruct (truthy e); by rewrite <- app_assoc|]);
          (split; [|simpl; lia]); repeat constructor;
          exists d; (split; [by left|]); right; eauto.
  - after_write_call Hh; eexists [_; _];
      (split; [try destruct (truthy e); by rewrite <- app_assoc|]);
      (split; [|simpl; lia]); repeat constructor;
      exists d; (split; [by left|]); left; exists (ip d); eauto.
Qed.

Lemma loop_events records devices :
  forall h,
  exists seg,
    snd (for_each (Dnspod.sync_device net py_repr global_ip self records domain
                     sub_domain) devices h) = h ++ seg /\
    Forall (loop_event self global_ip domain sub_domain devices) seg /\
    length (List.filter is_post seg) <= length devices.
Proof.
  induction devices as [|d devices IH]; intros h.
  - exists []. simpl. unfold_M. split; [by rewrite app_nil_r|]. split; [constructor|lia].
  - rewrite for_each_cons.
    destruct (iteration_events records d h) as (seg1 & H1 & F1 & L1).
    assert (Forall (loop_event self global_ip domain sub_domain (d :: devices)) seg1) as F1'.
    { eapply Forall_impl; [exact F1|]. intros ev. apply loop_event_mono.
      intros x [->|[]]. by left. }
    destruct (Dnspod.sync_device _ _ _ _ _ _ _ d h) as [[[v|]|e] h'];
      simpl in H1; subst h'.
    + exists seg1. split; [done|]. split; [done|]. simpl. lia.
    + destruct (IH (h ++ seg1)) as (seg2 & H2 & F2 & L2).
      exists (seg1 ++ seg2). split; [by rewrite H2, app_assoc|]. split.
      * apply Forall_app. split; [done|].
        eapply Forall_impl; [exact F2|]. intros ev. apply loop_event_mono.
        intros x Hx. by right.
      * rewrite List.filter_app, length_app. simpl. lia.
    + exists seg1. split; [done|]. split; [done|]. simpl. lia.
Qed.

Lemma sync_history devices h :
  exists seg,
    snd (Dnspod.sync_devices_to_domain net py_repr global_ip self devices domain
           sub_domain h)
    = h ++ Dnspod.list_call self domain sub_domain :: seg /\
    Forall (loop_event self global_ip domain sub_domain devices) seg /\
    length (List.filter is_post seg) <= length devices.
Proof.
  unfold Dnspod.sync_devices_to_domain. unfold mbind at 1. unfold M_bind at 1.
  pose proof (list_records_history net py_repr self domain sub_domain h) as Hh.
  destruct (Dnspod.get_domain_records _ _ _ _ _ h) as [[[err rs]|e] h1];
    simpl in Hh; subst h1.
  - destruct (truthy err).
    { exists []. split; [done|]. split; [constructor|simpl; lia]. }
    destruct rs as [records|].
    + destruct (loop_events records devices (h ++ [Dnspod.list_call self domain sub_domain]))
        as (seg & Hseg & F & L).
      exists seg. split; [|done].
      unfold Dnspod.sync_loop. unfold_M.
      destruct (for_each _ devices _) as [[[v|]|e] h']; simpl in *; subst h';
        by rewrite <- app_assoc.
    + exists []. split; [|split; [constructor|simpl; lia]].
      by destruct devices.
  - exists []. split; [done|]. split; [constructor|simpl; lia].
Qed.

(** The loop appends one segment per device it gets to, in order; each
    segment is what the iteration of its device appends. *)
Lemma loop_segments records devices :
  forall h,
  exists segs,
    snd (for_each (Dnspod.sync_device net py_repr global_ip self records domain
                     sub_domain) devices h) = h ++ concat segs /\
    length segs <= length devices /\
    Forall2 (fun d seg =>
               Forall (loop_event self global_ip domain sub_domain [d]) seg /\
               length (List.filter is_post seg) <= 1)
      (take (length segs) devices) segs.
Proof.
  induction devices as [|d devices IH]; intros h.
  - exists []. simpl. unfold_M. split; [by rewrite app_nil_r|]. split; [lia|constructor].
  - rewrite for_each_cons.
    destruct (iteration_events records d h) as (seg1 & H1 & F1 & L1).
    destruct (Dnspod.sync_device _ _ _ _ _ _ _ d h) as [[[v|]|e] h'];
      simpl in H1; subst h'.
    + exists [seg1]. simpl. rewrite app_nil_r. split; [done|]. split; [lia|].
      constructor; [by split|]. rewrite take_0. constructor.
    + destruct (IH (h ++ seg1)) as (segs & H2 & L2 & F2).
      exists (seg1 :: segs). simpl. split; [by rewrite H2, app_assoc|]. split; [lia|].
      by constructor.
    + exists [seg1]. simpl. rewrite app_nil_r. split; [done|]. split; [lia|].
      constructor; [by split|]. rewrite take_0. constructor.
Qed.

Lemma loop_event_not_list devices ev :
  loop_event self global_ip domain sub_domain devices ev ->
  forall data, ev <> Post "https://dnsapi.cn/Record.List" data.
Proof.
  destruct ev as [| url data0 | |]; simpl; try done.
  intros (d & _ & [(ip' & _ & Hev)|(record_id & Hev)]) data;
    unfold Dnspod.create_call, Dnspod.update_call in Hev;
    injection Hev as -> _; discriminate.
Qed.

(** X13.  [sync] starts with the record-list request.  What follows splits
    into one segment per device it gets to, in the order of the list; each
    segment holds at most one request, a create or an update for the record
    name of that device.  The record list is not requested again. *)
Theorem sync_request_budget devices h :
  exists segs,
    snd (Dnspod.sync_devices_to_domain net py_repr global_ip self devices domain
           sub_domain h)
    = h ++ Dnspod.list_call self domain sub_domain :: concat segs /\
    length segs <= length devices /\
    Forall2 (fun d seg =>
               Forall (loop_event self global_ip domain sub_domain [d]) seg /\
               length (List.filter is_post seg) <= 1)
      (take (length segs) devices) segs /\
    Forall (fun ev => forall data, ev <> Post "https://dnsapi.cn/Record.List" data)
      (concat segs).
Proof.
  assert (forall ds segs,
            Forall2 (fun d seg =>
                       Forall (loop_event self global_ip domain sub_domain [d]) seg /\
                       length (List.filter is_post seg) <= 1) ds segs ->
            Forall (fun ev => forall data, ev <> Post "https://dnsapi.cn/Record.List" data)
              (concat segs)) as Hnot.
  { induction 1 as [|d seg ds segs [Hseg _] _ IH]; simpl; [constructor|].
    apply Forall_app. split; [|done].
    eapply Forall_impl; [exact Hseg|]. intros ev. apply loop_event_not_list. }
  unfold Dnspod.sync_devices_to_domain. unfold mbind at 1. unfold M_bind at 1.
  pose proof (list_records_history net py_repr self domain sub_domain h) as Hh.
  destruct (Dnspod.get_domain_records _ _ _ _ _ h) as [[[err rs]|e] h1];
    simpl in Hh; subst h1.
  - destruct (truthy err).
    { exists []. simpl. split; [done|]. split; [lia|]. split; constructor. }
    destruct rs as [records|].
    + destruct (loop_segments records devices
                  (h ++ [Dnspod.list_call self domain sub_domain]))
        as (segs & Hsegs & L & F).
      exists segs. split; [|split; [done|split; [done|by apply (Hnot _ _ F)]]].
      unfold Dnspod.sync_loop. unfold_M.
      destruct (for_each _ devices _) as [[[v|]|e] h']; simpl in *; subst h';
        by rewrite <- app_assoc.
    + exists []. simpl. split; [by destruct devices|]. split; [lia|]. split; constructor.
  - exists []. simpl. split; [done|]. split; [lia|]. split; constructor.
Qed.

(** X14.  After the list request, [sync] only prints log lines and sends create
    or update requests, each for the record name of one of the devices, in
    the given domain, of type A on the default line.  It never deletes a
    record and never writes under any other name. *)
Theorem sync_writes_only_for_devices devices h :
  exists seg,
    snd (Dnspod.sync_devices_to_domain net py_repr global_ip self devices domain
           sub_domain h)
    = h ++ Dnspod.list_call self domain sub_domain :: seg /\
    Forall (loop_event self global_ip domain sub_domain devices) seg.
Proof.
  destruct (sync_history devices h) as (seg & Hseg & F & _). eauto.
Qed.

(** X15.  When a matched name has no record on the default line and no global
    [ip] is bound, [sync] stops with [NameError] right after the log line
    of that device: no request is sent for it or for the devices after it. *)
Theorem missing_default_line_name_error records pre d post h h1 h2 rs :
  Dnspod.listed net py_repr self domain sub_domain h records h1 ->
  Dnspod.reaches net py_repr global_ip self records domain sub_domain pre h1 h2 ->
  records !! Dnspod.record_name_of d sub_domain = Some rs ->
  Dnspod.default_line rs = Done [] ->
  global_ip = None ->
  Dnspod.sync_devices_to_domain net py_repr global_ip self (pre ++ d :: post) domain
    sub_domain h
  = (Raised NameError,
     h2 ++ [Stdout ("Record " +:+ Dnspod.record_name_of d sub_domain +:+ "." +:+ domain
                      +:+ " default line not exist, set to " +:+ ip d)]).
Proof.
  intros Hlist Hpre Hhit Hdef Hg.
  rewrite (sync_at net py_repr global_ip self domain sub_domain records pre d post h h1 h2
             Hlist Hpre).
  rewrite (iteration_no_default_line net py_repr global_ip self domain sub_domain
             records d h2 rs Hhit Hdef).
  by rewrite Hg.
Qed.

(** X16.  When some record under a matched name has no ['line'], [sync] stops
    with [KeyError] before printing or sending anything for that device. *)
Theorem missing_line_key_error records pre d post h h1 h2 rs :
  Dnspod.listed net py_repr self domain sub_domain h records h1 ->
  Dnspod.reaches net py_repr global_ip self records domain sub_domain pre h1 h2 ->
  records !! Dnspod.record_name_of d sub_domain = Some rs ->
  Exists (fun r => py_item r "line" = Raised KeyError) rs ->
  Dnspod.sync_devices_to_domain net py_repr global_ip self (pre ++ d :: post) domain
    sub_domain h
  = (Raised KeyError, h2).
Proof.
  intros Hlist Hpre Hhit Hbad.
  rewrite (sync_at net py_repr global_ip self domain sub_domain records pre d post h h1 h2
             Hlist Hpre).
  assert (Dnspod.default_line rs = Raised KeyError) as Hdef.
  { apply default_line_key_error; [|done].
    eapply Forall_impl;
      [exact (index_entries net py_repr self domain sub_domain h records h1
                _ rs Hlist Hhit)|].
    by intros r [Hr _]. }
  unfold Dnspod.sync_device. unfold_M. by rewrite Hhit, Hdef.
Qed.

(** X17.  An empty [sub_domain] is the same as none: the list request has no
    [sub_domain] field and the record names are the bare device names. *)
Theorem empty_sub_domain_is_none devices h :
  Dnspod.sync_devices_to_domain net py_repr global_ip self devices domain (Some "") h
  = Dnspod.sync_devices_to_domain net py_repr global_ip self devices domain None h.
Proof. reflexivity. Qed.
End Loop.

(** ** The whole run *)

Section Run.
Variable net : world.
Variable py_repr : json -> string.
Variable global_ip : option string.
Variable cfg : config.

(** X18.  When the inventory is fetched and [sync] returns an error, [main]
    prints ['Dnspod sync records failed: '] and the error to stderr and
    exits with status 1. *)
Theorem main_reports_sync_error h devices h1 err h2 :
  get_tailscale_devices net (TAILSCALE_TAILNET cfg) (TAILSCALE_API_KEY cfg) h
  = (Done (None, Some devices), h1) ->
  Dnspod.sync_devices_to_domain net py_repr global_ip
    (Dnspod.init (DNSPOD_API_ID cfg) (DNSPOD_API_TOKEN cfg)) devices
    (DNSPOD_DOMAIN cfg) (DNSPOD_SUB_DOMAIN cfg) h1 = (Done err, h2) ->
  truthy err = true ->
  main net py_repr global_ip cfg h
  = (Raised (SystemExit 1),
     h2 ++ [Stderr ("Dnspod sync records failed: " +:+ default "" err)]).
Proof.
  intros Hinv Hsync Herr. unfold main.
  unfold mbind at 1. unfold M_bind at 1. rewrite Hinv. simpl.
  unfold mbind at 1. unfold M_bind at 1. rewrite Hsync, Herr.
  unfold sys_exit. by unfold_M.
Qed.

(** X19.  When the inventory is fetched and [sync] returns no error, [main]
    ends normally: nothing is printed to stderr and the history is the one
    [sync] left. *)
Theorem main_succeeds h devices h1 h2 :
  get_tailscale_devices net (TAILSCALE_TAILNET cfg) (TAILSCALE_API_KEY cfg) h
  = (Done (None, Some devices), h1) ->
  Dnspod.sync_devices_to_domain net py_repr global_ip
    (Dnspod.init (DNSPOD_API_ID cfg) (DNSPOD_API_TOKEN cfg)) devices
    (DNSPOD_DOMAIN cfg) (DNSPOD_SUB_DOMAIN cfg) h1 = (Done None, h2) ->
  main net py_repr global_ip cfg h = (Done tt, h2).
Proof.
  intros Hinv Hsync. unfold main.
  unfold mbind at 1. unfold M_bind at 1. rewrite Hinv. simpl.
  unfold mbind at 1. unfold M_bind at 1. by rewrite Hsync.
Qed.

(** X20.  When the [requests.get] call itself raises (no connection, timeout),
    [main] ends with that exception: no message is printed to stderr, no
    [sys.exit(1)] is reached and nothing is sent to the DNS provider. *)
Theorem main_inventory_no_reply h detail :
  on_get net h
    ("https://api.tailscale.com/api/v2/tailnet/" +:+ TAILSCALE_TAILNET cfg +:+ "/devices")
    (TAILSCALE_API_KEY cfg, "") = NoReply detail ->
  main net py_repr global_ip cfg h
  = (Raised (TransportError detail),
     h ++ [Get ("https://api.tailscale.com/api/v2/tailnet/" +:+ TAILSCALE_TAILNET cfg
                  +:+ "/devices") (TAILSCALE_API_KEY cfg, "")]).
Proof.
  intros Hreply. unfold main, get_tailscale_devices, requests_get. unfold_M.
  by rewrite Hreply.
Qed.
End Run.

(** ** The inventory *)

Section Fetch.
Variable net : world.

(** X21.  [get_tailscale_devices] returns a non-empty error text and no devices,
    or no error and a device list. *)
Theorem inventory_error_or_devices tailnet api_key h err ds h' :
  get_tailscale_devices net tailnet api_key h = (Done (err, ds), h') ->
  (truthy err = true /\ ds = None) \/
  (err = None /\ exists devices, ds = Some devices).
Proof.
  unfold get_tailscale_devices, requests_get. unfold_M.
  destruct (on_get net h _ _) as [d|e| |ret]; simpl; try discriminate.
  - intros [= <- <- _]. by left.
  - intros [= <- <- _]. by left.
  - destruct (py_get ret "devices" _) as [v|]; [|discriminate]. simpl.
    destruct (py_iter v) as [items|]; [|discriminate]. simpl.
    destruct (map_outcome _ items) as [devices|]; [|discriminate].
    intros [= <- <- _]. right. eauto.
Qed.

(** X22.  Any reply other than a decoded body makes the fetch return an error
    text and no devices: the text of the HTTP error after ['Call Tailscale
    API failed: '], or the decode-failure text. *)
Theorem inventory_failure_text tailnet api_key h reply :
  on_get net h ("https://api.tailscale.com/api/v2/tailnet/" +:+ tailnet +:+ "/devices")
    (api_key, "") = reply ->
  (forall detail, reply <> NoReply detail) ->
  (forall ret, reply <> Decoded ret) ->
  fst (get_tailscale_devices net tailnet api_key h)
  = Done (Some (match reply with
                | RequestException e => "Call Tailscale API failed: " +:+ e
                | _ => "Tailscale API response json decode failed."
                end), None).
Proof.
  intros Hreply Hno Hdec. unfold get_tailscale_devices, requests_get. unfold_M.
  rewrite Hreply. destruct reply as [d|e| |ret]; simpl; try done.
  - by destruct (Hno d).
  - by destruct (Hdec ret).
Qed.

(** X23.  When the fetch succeeds, the devices are the items of the reply, one
    for one and in order: the name of each is the raw name without the
    occurrences of [.domain], its address is the first of the ['addresses']
    of its item.  No item is dropped, merged or reordered. *)
Theorem devices_follow_items tailnet api_key h ret ds items devices :
  on_get net h ("https://api.tailscale.com/api/v2/tailnet/" +:+ tailnet +:+ "/devices")
    (api_key, "") = Decoded ret ->
  py_get ret "devices" (JArr []) = Done ds ->
  py_iter ds = Done items ->
  fst (get_tailscale_devices net tailnet api_key h) = Done (None, Some devices) ->
  Forall2 (fun item d =>
             exists raw addresses,
               py_item item "name" = Done (JStr raw) /\
               name d = str_remove ("." +:+ at_to_dot tailnet) raw /\
               py_item item "addresses" = Done addresses /\
               py_first addresses = Done (JStr (ip d)))
    items devices.
Proof.
  intros Hreply Hds Hitems.
  unfold get_tailscale_devices, requests_get. unfold_M.
  rewrite Hreply. simpl. rewrite Hds. simpl. rewrite Hitems. simpl.
  destruct (map_outcome _ items) as [l|] eqn:Hmap; [|discriminate].
  simpl. intros [= <-].
  eapply Forall2_impl; [exact (map_outcome_Forall2 _ _ _ Hmap)|].
  intros item d. apply device_of_inv.
Qed.

Lemma map_outcome_raises {A B : Type} (f : A -> outcome B) pre x post ys e :
  map_outcome f pre = Done ys ->
  f x = Raised e ->
  map_outcome f (pre ++ x :: post) = Raised e.
Proof.
  revert ys; induction pre as [|p pre IH]; intros ys; simpl.
  - intros _ Hx. by rewrite Hx.
  - destruct (f p) as [y|]; [|discriminate].
    destruct (map_outcome f pre) as [ys'|] eqn:Hpre; [|discriminate].
    intros _ Hx. by rewrite (IH ys' eq_refl Hx).
Qed.

(** X24.  A device whose ['addresses'] list is empty makes the whole fetch raise
    [IndexError]: neither the devices before it nor an error text are
    returned. *)
Theorem empty_address_list_raises tailnet api_key h ret pre item post before raw :
  on_get net h ("https://api.tailscale.com/api/v2/tailnet/" +:+ tailnet +:+ "/devices")
    (api_key, "") = Decoded ret ->
  py_get ret "devices" (JArr []) = Done (JArr (pre ++ item :: post)) ->
  map_outcome (device_of (at_to_dot tailnet)) pre = Done before ->
  py_item item "name" = Done (JStr raw) ->
  py_item item "addresses" = Done (JArr []) ->
  get_tailscale_devices net tailnet api_key h
  = (Raised IndexError,
     h ++ [Get ("https://api.tailscale.com/api/v2/tailnet/" +:+ tailnet +:+ "/devices")
             (api_key, "")]).
Proof.
  intros Hreply Hds Hpre Hname Haddr.
  unfold get_tailscale_devices, requests_get. unfold_M.
  rewrite Hreply. simpl. rewrite Hds. simpl.
  rewrite (map_outcome_raises _ pre item post before IndexError Hpre); [done|].
  unfold device_of. by rewrite Hname, Haddr.
Qed.

(** X25.  A raw name in which [.domain] does not occur is taken over unchanged
    as the name of the device. *)
Theorem name_without_domain_unchanged domain item raw addresses address :
  py_item item "name" = Done (JStr raw) ->
  no_occurrence ("." +:+ domain) raw = true ->
  py_item item "addresses" = Done addresses ->
  py_first addresses = Done (JStr address) ->
  device_of domain item = Done {| name := raw; ip := address |}.
Proof.
  intros Hname Hno Haddr Hfirst. unfold device_of.
  by rewrite Hname, Haddr, Hfirst, str_remove_absent.
Qed.
End Fetch.

(** ** The further properties on sample runs *)


Lemma list_error_or_index_witness :
  (truthy None = true /\ Some ({[ "host.ts" := [stale] ]} : gmap string (list json)) = None) \/
  ((None : option string) = None /\
   exists records, Some ({[ "host.ts" := [stale] ]} : gmap string (list json)) = Some records).
Proof.
  refine (list_error_or_index (net (inventory []) (listing [stale]) accepted) py_repr dnspod
            domain sub_domain [] None (Some {[ "host.ts" := [stale] ]}) [list_call] _).
  vm_compute; reflexivity.
Defined.

Lemma accepted_is_success_witness :
  let net := net (inventory []) rejected accepted in
  let env := [status "1" "Action completed successful"] in
  fst (Dnspod._request net py_repr dnspod "Record.Create" [] []) = Done (None, Some (JObj env)) /\
  fst (Dnspod.add_record_a net py_repr dnspod "100.64.0.1" domain "host.ts" []) = Done None /\
  fst (Dnspod.modify_record_a net py_repr dnspod "100.64.0.1" domain "host.ts" (JStr "7") [])
  = Done None.
Proof.
  intros net env.
  pose proof (accepted_is_success net py_repr dnspod [] env
                [("code", JStr "1"); ("message", JStr "Action completed successful")]
                "100.64.0.1" domain "host.ts" (JStr "7") "Record.Create" []
                eq_refl eq_refl) as (Hrequest & Hcreate & Hupdate).
  split; [|split].
  - apply Hrequest. reflexivity.
  - apply Hcreate. reflexivity.
  - apply Hupdate. reflexivity.
Defined.

Lemma http_failure_is_error_witness :
  fst (Dnspod.get_domain_records (net (inventory []) (RequestException "500 Server Error") accepted) py_repr dnspod domain sub_domain [])
  = Done (Some "Call Dnspod API failed: 500 Server Error", None) /\
  fst (Dnspod.add_record_a (net (inventory []) (listing [stale]) (RequestException "500 Server Error")) py_repr dnspod "100.64.0.1" domain "host.ts"
         [list_call])
  = Done (Some "Call Dnspod API failed: 500 Server Error") /\
  fst (Dnspod.modify_record_a (net (inventory []) (listing [stale]) (RequestException "500 Server Error")) py_repr dnspod "100.64.0.1" domain "host.ts"
         (JStr "7") [list_call])
  = Done (Some "Call Dnspod API failed: 500 Server Error").
Proof.
  pose proof (fun w h =>
                http_failure_is_error w py_repr dnspod h "500 Server Error" domain sub_domain
                  "100.64.0.1" "host.ts" (JStr "7")) as H.
  split; [|split].
  - apply (H (net (inventory []) (RequestException "500 Server Error") accepted) []). reflexivity.
  - apply (H (net (inventory []) (listing [stale]) (RequestException "500 Server Error")) [list_call]). reflexivity.
  - apply (H (net (inventory []) (listing [stale]) (RequestException "500 Server Error")) [list_call]). reflexivity.
Defined.

Lemma undecodable_body_is_error_witness :
  fst (Dnspod.get_domain_records (net (inventory []) (ValueError) accepted) py_repr dnspod domain sub_domain [])
  = Done (Some "Dnspod API response json decode failed.", None) /\
  fst (Dnspod.add_record_a (net (inventory []) (listing [stale]) (ValueError)) py_repr dnspod "100.64.0.1" domain "host.ts"
         [list_call])
  = Done (Some "Dnspod API response json decode failed.") /\
  fst (Dnspod.modify_record_a (net (inventory []) (listing [stale]) (ValueError)) py_repr dnspod "100.64.0.1" domain "host.ts"
         (JStr "7") [list_call])
  = Done (Some "Dnspod API response json decode failed.").
Proof.
  pose proof (fun w h =>
                undecodable_body_is_error w py_repr dnspod h  domain sub_domain
                  "100.64.0.1" "host.ts" (JStr "7")) as H.
  split; [|split].
  - apply (H (net (inventory []) (ValueError) accepted) []). reflexivity.
  - apply (H (net (inventory []) (listing [stale]) (ValueError)) [list_call]). reflexivity.
  - apply (H (net (inventory []) (listing [stale]) (ValueError)) [list_call]). reflexivity.
Defined.

Lemma missing_status_is_rejection_witness :
  fst (Dnspod.get_domain_records (net (inventory []) (Decoded (JObj [])) accepted) py_repr dnspod domain sub_domain [])
  = Done (Some "Dnspod API response status != 1: None/None", None) /\
  fst (Dnspod.add_record_a (net (inventory []) (listing [stale]) (Decoded (JObj []))) py_repr dnspod "100.64.0.1" domain "host.ts"
         [list_call])
  = Done (Some "Dnspod API response status != 1: None/None") /\
  fst (Dnspod.modify_record_a (net (inventory []) (listing [stale]) (Decoded (JObj []))) py_repr dnspod "100.64.0.1" domain "host.ts"
         (JStr "7") [list_call])
  = Done (Some "Dnspod API response status != 1: None/None").
Proof.
  pose proof (fun w h =>
                missing_status_is_rejection w py_repr dnspod h [] domain sub_domain
                  "100.64.0.1" "host.ts" (JStr "7") eq_refl) as H.
  split; [|split].
  - apply (H (net (inventory []) (Decoded (JObj [])) accepted) []). reflexivity.
  - apply (H (net (inventory []) (listing [stale]) (Decoded (JObj []))) [list_call]). reflexivity.
  - apply (H (net (inventory []) (listing [stale]) (Decoded (JObj []))) [list_call]). reflexivity.
Defined.

Lemma non_dict_body_raises_witness :
  fst (Dnspod.get_domain_records (net (inventory []) (Decoded (JArr [])) accepted) py_repr dnspod domain sub_domain [])
  = Raised AttributeError /\
  fst (Dnspod.add_record_a (net (inventory []) (listing [stale]) (Decoded (JArr []))) py_repr dnspod "100.64.0.1" domain "host.ts"
         [list_call])
  = Raised AttributeError /\
  fst (Dnspod.modify_record_a (net (inventory []) (listing [stale]) (Decoded (JArr []))) py_repr dnspod "100.64.0.1" domain "host.ts"
         (JStr "7") [list_call])
  = Raised AttributeError.
Proof.
  pose proof (fun w h =>
                non_dict_body_raises w py_repr dnspod h (JArr []) domain sub_domain
                  "100.64.0.1" "host.ts" (JStr "7") (fun x : False => x)) as H.
  split; [|split].
  - apply (H (net (inventory []) (Decoded (JArr [])) accepted) []). reflexivity.
  - apply (H (net (inventory []) (listing [stale]) (Decoded (JArr []))) [list_call]). reflexivity.
  - apply (H (net (inventory []) (listing [stale]) (Decoded (JArr []))) [list_call]). reflexivity.
Defined.

Lemma no_reply_raises_witness :
  fst (Dnspod.get_domain_records (net (inventory []) (NoReply "timed out") accepted) py_repr dnspod domain sub_domain [])
  = Raised (TransportError "timed out") /\
  fst (Dnspod.add_record_a (net (inventory []) (listing [stale]) (NoReply "timed out")) py_repr dnspod "100.64.0.1" domain "host.ts"
         [list_call])
  = Raised (TransportError "timed out") /\
  fst (Dnspod.modify_record_a (net (inventory []) (listing [stale]) (NoReply "timed out")) py_repr dnspod "100.64.0.1" domain "host.ts"
         (JStr "7") [list_call])
  = Raised (TransportError "timed out").
Proof.
  pose proof (fun w h =>
                no_reply_raises w py_repr dnspod h "timed out" domain sub_domain
                  "100.64.0.1" "host.ts" (JStr "7")) as H.
  split; [|split].
  - apply (H (net (inventory []) (NoReply "timed out") accepted) []). reflexivity.
  - apply (H (net (inventory []) (listing [stale]) (NoReply "timed out")) [list_call]). reflexivity.
  - apply (H (net (inventory []) (listing [stale]) (NoReply "timed out")) [list_call]). reflexivity.
Defined.

Lemma index_groups_by_name_witness :
  let net := net (inventory []) (listing [stale; fresh_nas; telecom]) accepted in
  exists records : gmap string (list json),
    Dnspod.get_domain_records net py_repr dnspod domain sub_domain []
    = (Done (None, Some records), [list_call]) /\
    forall k, records !! k =
              match List.filter (named k) [stale; fresh_nas; telecom] with
              | [] => None
              | l => Some l
              end.
Proof.
  intros net.
  refine (index_groups_by_name net py_repr dnspod domain sub_domain []
            (JObj [status "1" "Action completed successful";
                   ("records", JArr [stale; fresh_nas; telecom])])
            [list_call] [stale; fresh_nas; telecom] _ _ _).
  - vm_compute; reflexivity.
  - reflexivity.
  - repeat constructor; eexists; reflexivity.
Defined.

Lemma malformed_record_raises_witness :
  let nameless := JObj [("id", JStr "9"); ("line", JStr "默认")] in
  let net := net (inventory []) (listing [stale; nameless]) accepted in
  Dnspod.get_domain_records net py_repr dnspod domain sub_domain []
  = (Raised KeyError, [list_call]).
Proof.
  intros nameless net.
  refine (malformed_record_raises net py_repr dnspod domain sub_domain []
            (JObj [status "1" "Action completed successful";
                   ("records", JArr [stale; nameless])])
            [list_call] [stale] nameless [] KeyError _ _ _ _).
  - vm_compute; reflexivity.
  - reflexivity.
  - repeat constructor; eexists; reflexivity.
  - reflexivity.
Defined.

Lemma default_line_is_filter_witness :
  Dnspod.default_line [telecom; stale] = Done (List.filter on_default_line [telecom; stale]).
Proof.
  refine (default_line_is_filter [telecom; stale] _).
  repeat constructor; eexists; reflexivity.
Defined.

Lemma index_entries_are_named_witness :
  Forall (fun r => is_dict r /\ named "host.ts" r = true) [stale; telecom].
Proof.
  refine (index_entries_are_named (net (inventory []) (listing [stale; fresh_nas; telecom])
                                     accepted)
            py_repr dnspod domain sub_domain []
            {[ "host.ts" := [stale; telecom]; "nas.ts" := [fresh_nas] ]} [list_call]
            "host.ts" [stale; telecom] _ _); vm_compute; reflexivity.
Defined.

Lemma missing_default_line_name_error_witness :
  let net := net (inventory []) (listing [telecom]) accepted in
  Dnspod.sync_devices_to_domain net py_repr None dnspod [host; nas] domain sub_domain []
  = (Raised NameError,
     [list_call;
      Stdout "Record host.ts.example.org default line not exist, set to 100.64.0.1"]).
Proof.
  intros net.
  refine (missing_default_line_name_error net py_repr None dnspod domain sub_domain
            {[ "host.ts" := [telecom] ]} [] host [nas] [] [list_call] [list_call] [telecom]
            _ _ _ _ _); vm_compute; reflexivity.
Defined.

Lemma missing_line_key_error_witness :
  let lineless := JObj [("id", JStr "7"); ("name", JStr "host.ts")] in
  let net := net (inventory []) (listing [lineless]) accepted in
  Dnspod.sync_devices_to_domain net py_repr None dnspod [host; nas] domain sub_domain []
  = (Raised KeyError, [list_call]).
Proof.
  intros lineless net.
  refine (missing_line_key_error net py_repr None dnspod domain sub_domain
            {[ "host.ts" := [lineless] ]} [] host [nas] [] [list_call] [list_call] [lineless]
            _ _ _ _).
  - vm_compute; reflexivity.
  - vm_compute; reflexivity.
  - vm_compute; reflexivity.
  - constructor. reflexivity.
Defined.

Lemma main_reports_sync_error_witness :
  let get := Get "https://api.tailscale.com/api/v2/tailnet/user@example.com/devices"
               ("tskey", "") in
  main (net (inventory [("host.user.example.com", "100.64.0.1")]) rejected accepted)
    py_repr None cfg []
  = (Raised (SystemExit 1),
     [get; list_call;
      Stderr "Dnspod sync records failed: Dnspod API response status != 1: 6/Invalid domain"]).
Proof.
  intros get.
  refine (main_reports_sync_error
            (net (inventory [("host.user.example.com", "100.64.0.1")]) rejected accepted)
            py_repr None cfg [] [host] [get] rejection [get; list_call] _ _ _);
    vm_compute; reflexivity.
Defined.

Lemma main_succeeds_witness :
  let get := Get "https://api.tailscale.com/api/v2/tailnet/user@example.com/devices"
               ("tskey", "") in
  main (net (inventory [("host.user.example.com", "100.64.0.1")]) (listing [fresh]) accepted)
    py_repr None cfg []
  = (Done tt,
     [get; list_call;
      Stdout "Record host.ts.example.org is already point to 100.64.0.1, do nothing"]).
Proof.
  intros get.
  refine (main_succeeds
            (net (inventory [("host.user.example.com", "100.64.0.1")]) (listing [fresh])
               accepted)
            py_repr None cfg [] [host] [get] _ _ _); vm_compute; reflexivity.
Defined.

Lemma main_inventory_no_reply_witness :
  main (net (NoReply "timed out") (listing []) accepted) py_repr None cfg []
  = (Raised (TransportError "timed out"),
     [Get "https://api.tailscale.com/api/v2/tailnet/user@example.com/devices"
        ("tskey", "")]).
Proof.
  refine (main_inventory_no_reply (net (NoReply "timed out") (listing []) accepted)
            py_repr None cfg [] "timed out" _).
  reflexivity.
Defined.

Lemma inventory_error_or_devices_witness :
  (truthy None = true /\ Some [host] = None) \/
  ((None : option string) = None /\ exists devices, Some [host] = Some devices).
Proof.
  refine (inventory_error_or_devices
            (net (inventory [("host.user.example.com", "100.64.0.1")]) (listing []) accepted)
            "user@example.com" "tskey" [] None (Some [host])
            [Get "https://api.tailscale.com/api/v2/tailnet/user@example.com/devices"
               ("tskey", "")] _).
  vm_compute; reflexivity.
Defined.

Lemma inventory_failure_text_witness :
  fst (get_tailscale_devices (net ValueError (listing []) accepted)
         "user@example.com" "tskey" [])
  = Done (Some "Tailscale API response json decode failed.", None).
Proof.
  refine (inventory_failure_text (net ValueError (listing []) accepted)
            "user@example.com" "tskey" [] ValueError _ _ _);
    [reflexivity|discriminate..].
Defined.

Lemma devices_follow_items_witness :
  let item := JObj [("name", JStr "host.user.example.com");
                    ("addresses", JArr [JStr "100.64.0.1"])] in
  Forall2 (fun item d =>
             exists raw addresses,
               py_item item "name" = Done (JStr raw) /\
               name d = str_remove ("." +:+ at_to_dot "user@example.com") raw /\
               py_item item "addresses" = Done addresses /\
               py_first addresses = Done (JStr (ip d)))
    [item] [host].
Proof.
  intros item.
  refine (devices_follow_items
            (net (inventory [("host.user.example.com", "100.64.0.1")]) (listing []) accepted)
            "user@example.com" "tskey" [] (JObj [("devices", JArr [item])]) (JArr [item])
            [item] [host] _ _ _ _); reflexivity.
Defined.

Lemma empty_address_list_raises_witness :
  let good := JObj [("name", JStr "host.user.example.com");
                    ("addresses", JArr [JStr "100.64.0.1"])] in
  let bare := JObj [("name", JStr "nas.user.example.com"); ("addresses", JArr [])] in
  get_tailscale_devices
    (net (Decoded (JObj [("devices", JArr [good; bare])])) (listing []) accepted)
    "user@example.com" "tskey" []
  = (Raised IndexError,
     [Get "https://api.tailscale.com/api/v2/tailnet/user@example.com/devices"
        ("tskey", "")]).
Proof.
  intros good bare.
  refine (empty_address_list_raises
            (net (Decoded (JObj [("devices", JArr [good; bare])])) (listing []) accepted)
            "user@example.com" "tskey" [] (JObj [("devices", JArr [good; bare])])
            [good] bare [] [host] "nas.user.example.com" _ _ _ _ _); reflexivity.
Defined.

Lemma name_without_domain_unchanged_witness :
  device_of "user.example.com"
    (JObj [("name", JStr "pangolin.tail1234.ts.net");
           ("addresses", JArr [JStr "100.64.0.3"])])
  = Done {| name := "pangolin.tail1234.ts.net"; ip := "100.64.0.3" |}.
Proof.
  refine (name_without_domain_unchanged "user.example.com" _ "pangolin.tail1234.ts.net"
            (JArr [JStr "100.64.0.3"]) "100.64.0.3" _ _ _ _); reflexivity.
Defined.
